(** * Smart-Document-Intelligence: the text-analysis and answer engine

    A shallow embedding of the three pure functions of
    [frontend/src/App.js] ([performDocumentAnalysis],
    [extractRelevantContext], [generateAnswer]) and of the document record
    built by [handleFileUpload], together with the JavaScript primitives
    they call, and of the state of the component with the handlers that
    change it ([loadStoredData], [saveDocuments], [handleFileUpload],
    [handleQuery], [deleteDocument], [showDocumentAnalysis]).

    Strings are sequences of code units in the range 0..255 (Stdlib's
    [string]); on that range whitespace, [toLowerCase], [\d] and the
    character classes below coincide with ECMAScript's.  Numbers that come
    out of a division are IEEE binary64 values ([spec_float] at precision 53,
    [emax] 1024); array lengths are [nat]. *)

From Stdlib Require Import ZArith NArith List Bool Arith Lia.
From Stdlib Require Import Ascii String DecimalString.
From Stdlib Require Import SpecFloat.
From Stdlib Require Import Sorting.Sorted Sorting.Permutation.
Import ListNotations.

Local Open Scope list_scope.
Local Open Scope string_scope.
Local Open Scope nat_scope.

(* ================================================================= *)
(** ** JavaScript strings *)

Module JSString.

(** [\s] and the characters removed by [trim]: TAB, LF, VT, FF, CR, SP
    and NBSP are the members of WhiteSpace and LineTerminator below
    U+0100. *)
Definition is_space (c : ascii) : bool :=
  let n := nat_of_ascii c in
  ((9 <=? n) && (n <=? 13)) || (n =? 32) || (n =? 160).

(** [[.!?]] *)
Definition is_terminator (c : ascii) : bool :=
  let n := nat_of_ascii c in
  (n =? 46) || (n =? 33) || (n =? 63).

(** [\d] *)
Definition is_digit (c : ascii) : bool :=
  let n := nat_of_ascii c in
  (48 <=? n) && (n <=? 57).

(** [[a-z0-9]] *)
Definition is_lower_alnum (c : ascii) : bool :=
  let n := nat_of_ascii c in
  ((97 <=? n) && (n <=? 122)) || is_digit c.

Definition is_newline (c : ascii) : bool :=
  nat_of_ascii c =? 10.

(** Simple lowercase mapping below U+0100: A-Z, and U+00C0..U+00DE
    except the multiplication sign U+00D7, move up by 32. *)
Definition lower_char (c : ascii) : ascii :=
  let n := nat_of_ascii c in
  if ((65 <=? n) && (n <=? 90))
     || ((192 <=? n) && (n <=? 222) && negb (n =? 215))
  then ascii_of_nat (n + 32)
  else c.

Fixpoint toLowerCase (s : string) : string :=
  match s with
  | EmptyString => EmptyString
  | String c s' => String (lower_char c) (toLowerCase s')
  end.

(** [s.replace(/[^a-z0-9]/g, '')] *)
Fixpoint strip_non_alnum (s : string) : string :=
  match s with
  | EmptyString => EmptyString
  | String c s' =>
      if is_lower_alnum c then String c (strip_non_alnum s')
      else strip_non_alnum s'
  end.

Fixpoint trimStart (s : string) : string :=
  match s with
  | EmptyString => EmptyString
  | String c s' => if is_space c then trimStart s' else s
  end.

Fixpoint trimEnd (s : string) : string :=
  match s with
  | EmptyString => EmptyString
  | String c s' =>
      match trimEnd s' with
      | EmptyString => if is_space c then EmptyString else String c EmptyString
      | r => String c r
      end
  end.

Definition trim (s : string) : string := trimEnd (trimStart s).

(** [hay.includes(needle)] *)
Fixpoint includes (hay needle : string) : bool :=
  if prefix needle hay then true
  else match hay with
       | EmptyString => false
       | String _ hay' => includes hay' needle
       end.

(** Adds a character at the front of the fragment being read. *)
Definition cons_head (c : ascii) (l : list string) : list string :=
  match l with
  | [] => [String c EmptyString]
  | f :: rest => String c f :: rest
  end.

(** [s.split(/[...]+/)] for a character class [d]: the fragments between
    the maximal runs of characters of [d], the empty fragments at either
    end included.  [in_run] says that the previous character belongs to
    the separator being consumed. *)
Fixpoint split_class (d : ascii -> bool) (in_run : bool) (s : string)
  : list string :=
  match s with
  | EmptyString => [EmptyString]
  | String c s' =>
      if d c then
        if in_run then split_class d true s'
        else EmptyString :: split_class d true s'
      else cons_head c (split_class d false s')
  end.

Definition starts_with (d : ascii -> bool) (s : string) : bool :=
  match s with
  | String c _ => d c
  | EmptyString => false
  end.

(** [s.split(/\n\n+/)]: a separator is a maximal run of at least two
    newlines; a newline on its own stays in its fragment. *)
Fixpoint split_blank_lines (in_run : bool) (s : string) : list string :=
  match s with
  | EmptyString => [EmptyString]
  | String c s' =>
      if is_newline c then
        if in_run then split_blank_lines true s'
        else if starts_with is_newline s'
             then EmptyString :: split_blank_lines true s'
             else cons_head c (split_blank_lines false s')
      else cons_head c (split_blank_lines false s')
  end.

(** [s.split(sep)] for a separator of one character: every occurrence
    separates. *)
Fixpoint split_char (sep : ascii) (s : string) : list string :=
  match s with
  | EmptyString => [EmptyString]
  | String c s' =>
      if Ascii.eqb c sep then EmptyString :: split_char sep s'
      else cons_head c (split_char sep s')
  end.

(** [s.match(/[...]+/g)] for a character class [d]: the maximal runs of
    characters of [d], left to right.  JavaScript returns [null] where
    this list is empty. *)
Fixpoint match_class (d : ascii -> bool) (s : string) : list string :=
  match s with
  | EmptyString => []
  | String c s' =>
      if d c then
        if starts_with d s' then cons_head c (match_class d s')
        else String c EmptyString :: match_class d s'
      else match_class d s'
  end.

End JSString.

(* ================================================================= *)
(** ** JavaScript numbers *)

Module JSNumber.

(** A Number is an IEEE binary64 value. *)
Definition number : Type := spec_float.

Definition of_Z (z : Z) : number := binary_normalize 53 1024 z 0 false.
Definition of_nat (n : nat) : number := of_Z (Z.of_nat n).

(** [x / y] *)
Definition div (x y : number) : number := SFdiv 53 1024 x y.

(** [Math.ceil(x)] *)
Definition ceil (x : number) : number :=
  match x with
  | S754_finite s m (Zneg p) =>
      let q := (Zpos m / 2 ^ Zpos p)%Z in
      let r := (Zpos m mod 2 ^ Zpos p)%Z in
      if s then binary_normalize 53 1024 (- q) 0 true
      else of_Z (if (r =? 0)%Z then q else q + 1)
  | _ => x
  end.

(** The integer [n] for which [n / 10^f - x] is closest to zero, the
    larger one when there are two, for [x = m * 2^e]. *)
Definition scaled (f : nat) (m : positive) (e : Z) : Z :=
  let p := (Zpos m * 10 ^ Z.of_nat f)%Z in
  match e with
  | Zneg k => ((2 * p + 2 ^ Zpos k) / (2 * 2 ^ Zpos k))%Z
  | _ => (p * 2 ^ e)%Z
  end.

Fixpoint zeros (k : nat) : string :=
  match k with
  | O => EmptyString
  | S k' => String "0" (zeros k')
  end.

(** The decimal digits of [n] with a point before the last [f] of them,
    padded with zeros on the left up to [f + 1] digits. *)
Definition fixed_digits (f : nat) (n : Z) : string :=
  let m := NilZero.string_of_uint (N.to_uint (Z.to_N n)) in
  let m := if String.length m <=? f
           then zeros (f + 1 - String.length m) ++ m else m in
  let k := String.length m in
  match f with
  | O => m
  | _ => substring 0 (k - f) m ++ "." ++ substring (k - f) f m
  end.

(** [x.toFixed(f)].  Values of 10^21 and more, which JavaScript prints
    in exponent form, are not quotients of two array lengths. *)
Definition toFixed (f : nat) (x : number) : string :=
  match x with
  | S754_nan => "NaN"
  | S754_infinity false => "Infinity"
  | S754_infinity true => "-Infinity"
  | S754_zero _ => fixed_digits f 0
  | S754_finite s m e =>
      (if s then "-" else "") ++ fixed_digits f (scaled f m e)
  end.

End JSNumber.

(* ================================================================= *)
(** ** JavaScript values, plain objects and arrays *)

Module JSArray.

Section Sort.
Context {A : Type}.
(** [comparefn a b]; [None] is NaN, which [sort] reads as +0. *)
Variable comparefn : A -> A -> option Z.

Definition goes_after (a b : A) : bool :=
  match comparefn a b with
  | Some v => (0 <? v)%Z
  | None => false
  end.

Fixpoint insert (x : A) (l : list A) : list A :=
  match l with
  | [] => [x]
  | y :: l' => if goes_after x y then y :: insert x l' else x :: l
  end.

(** [l.sort(comparefn)].  ECMAScript requires the sort to be stable.
    For a consistent comparator that fixes the result, and it is the list
    computed here: the only one that is sorted and keeps elements that
    compare equal in their order ([SortSpec.sort_unique]).  For a
    comparator that is not consistent (a NaN against counts that differ)
    the order is left to the engine; what this function returns then is one
    arrangement of the elements and not the order of a particular engine
    (V8's binary insertion gives another, see
    [inconsistent_comparator_example]); the properties proved of the
    program do not rest on it. *)
Fixpoint sort (l : list A) : list A :=
  match l with
  | [] => []
  | x :: l' => insert x (sort l')
  end.
End Sort.

(** [l.slice(0, n)] *)
Definition slice0 {A : Type} (n : nat) (l : list A) : list A := firstn n l.

(** [l.join(sep)] *)
Definition join (sep : string) (l : list string) : string :=
  String.concat sep l.

End JSArray.

Module JSObject.

(** The values the word-frequency object can hold or yield on a read.
    [VObjectFn] is the function [Object], which a plain object inherits
    as [constructor]; [VFnText k] is the string made of the source text
    of that function followed by [k] characters ["1"]. *)
Inductive value : Type :=
| VUndefined
| VNaN
| VNum (n : nat)
| VObjectFn
| VFnText (k : nat).

(** ToBoolean *)
Definition truthy (v : value) : bool :=
  match v with
  | VUndefined | VNaN | VNum O => false
  | _ => true
  end.

(** [v || d] *)
Definition or_else (v d : value) : value := if truthy v then v else d.

(** [v + 1]: numeric addition, or concatenation once [v] turns into a
    string. *)
Definition plus_one (v : value) : value :=
  match v with
  | VNum n => VNum (S n)
  | VObjectFn => VFnText 1
  | VFnText k => VFnText (S k)
  | VUndefined | VNaN => VNaN
  end.

(** [b - a] for two values; [None] is NaN.  Counts are below 2^32, so
    the difference of two of them is exact. *)
Definition subtract (b a : value) : option Z :=
  match b, a with
  | VNum nb, VNum na => Some (Z.of_nat nb - Z.of_nat na)%Z
  | _, _ => None
  end.

(** The own properties of an object created by [{}], in creation
    order. *)
Definition object : Type := list (string * value).

Definition empty : object := [].

Fixpoint get_own (o : object) (k : string) : option value :=
  match o with
  | [] => None
  | (k', v) :: o' => if String.eqb k' k then Some v else get_own o' k
  end.

(** The properties of [Object.prototype] whose names survive
    [strip_non_alnum] unchanged: only [constructor]. *)
Definition get_inherited (k : string) : value :=
  if String.eqb k "constructor" then VObjectFn else VUndefined.

(** [o[k]] *)
Definition get (o : object) (k : string) : value :=
  match get_own o k with
  | Some v => v
  | None => get_inherited k
  end.

(** [o[k] = v]: an existing own property keeps its place, a new one is
    created last. *)
Fixpoint set (o : object) (k : string) (v : value) : object :=
  match o with
  | [] => [(k, v)]
  | (k', v') :: o' =>
      if String.eqb k' k then (k', v) :: o' else (k', v') :: set o' k v
  end.

Fixpoint digits_value (acc : N) (s : string) : option N :=
  match s with
  | EmptyString => Some acc
  | String c s' =>
      if JSString.is_digit c
      then digits_value (acc * 10 + (N_of_ascii c - 48))%N s'
      else None
  end.

(** The array index a property name denotes: a canonical decimal numeral
    of an integer from 0 to 2^32 - 2. *)
Definition array_index (k : string) : option N :=
  match k with
  | EmptyString => None
  | String c rest =>
      if Ascii.eqb c "0" && negb (String.eqb rest EmptyString) then None
      else match digits_value 0 k with
           | Some n => if (n <? 4294967295)%N then Some n else None
           | None => None
           end
  end.

Definition is_array_index (k : string) : bool :=
  match array_index k with Some _ => true | None => false end.

Definition index_of (k : string) : Z :=
  match array_index k with Some n => Z.of_N n | None => 0%Z end.

(** [Object.entries(o)]: the array-index names first, in ascending
    numeric order, then the other names in creation order. *)
Definition entries (o : object) : list (string * value) :=
  (JSArray.sort
     (fun a b => Some (index_of (fst a) - index_of (fst b))%Z)
     (filter (fun p => is_array_index (fst p)) o)
   ++ filter (fun p => negb (is_array_index (fst p))) o)%list.

End JSObject.

(* ================================================================= *)
(** ** The application: [frontend/src/App.js] *)

Import JSString.
Import JSObject.

Definition non_empty (s : string) : bool := 0 <? String.length s.

(** [text.split(/[.!?]+/).filter(s => s.trim().length > 0)], the
    expression every function below starts from. *)
Definition split_sentences (text : string) : list string :=
  filter (fun s => non_empty (trim s)) (split_class is_terminator false text).

(** [text.split(/\s+/)] *)
Definition split_whitespace (text : string) : list string :=
  split_class is_space false text.

(** [text.split(/\s+/).filter(w => w.length > 0)] *)
Definition split_words (text : string) : list string :=
  filter non_empty (split_whitespace text).

(** [text.split(/\n\n+/).filter(p => p.trim().length > 0)] *)
Definition split_paragraphs (text : string) : list string :=
  filter (fun p => non_empty (trim p)) (split_blank_lines false text).

Record KeywordCount : Type := mkKeywordCount {
  word : string;
  count : value
}.

Record Analysis : Type := mkAnalysis {
  sentenceCount : nat;
  wordCount : nat;
  paragraphCount : nat;
  avgWordsPerSentence : string;
  topWords : list KeywordCount;
  readingTime : JSNumber.number
}.

(** [word.toLowerCase().replace(/[^a-z0-9]/g, '')] *)
Definition clean_word (w : string) : string :=
  strip_non_alnum (toLowerCase w).

(** One turn of the [forEach] that fills [wordFreq]. *)
Definition count_word (freq : object) (w : string) : object :=
  let clean := clean_word w in
  if 3 <? String.length clean
  then set freq clean (plus_one (or_else (get freq clean) (VNum 0)))
  else freq.

Definition wordFreq (words : list string) : object :=
  fold_left count_word words empty.

(** [(a, b) => b[1] - a[1]] *)
Definition by_count_desc (a b : string * value) : option Z :=
  subtract (snd b) (snd a).

Definition top_words (freq : object) : list KeywordCount :=
  map (fun e => mkKeywordCount (fst e) (snd e))
      (JSArray.slice0 10 (JSArray.sort by_count_desc (entries freq))).

Definition performDocumentAnalysis (text : string) : Analysis :=
  let sentences := split_sentences text in
  let words := split_words text in
  let paragraphs := split_paragraphs text in
  let freq := wordFreq words in
  let topWords := top_words freq in
  {| sentenceCount := List.length sentences;
     wordCount := List.length words;
     paragraphCount := List.length paragraphs;
     avgWordsPerSentence :=
       JSNumber.toFixed 1
         (JSNumber.div (JSNumber.of_nat (List.length words))
                       (JSNumber.of_nat (List.length sentences)));
     topWords := topWords;
     readingTime :=
       JSNumber.ceil
         (JSNumber.div (JSNumber.of_nat (List.length words))
                       (JSNumber.of_nat 200)) |}.

(** The record [handleFileUpload] builds from the text of the file.
    [Date.now()], [new Date().toISOString()] and [file.name] come from the
    environment. *)
Record Document : Type := mkDocument {
  doc_id : Z;
  doc_name : string;
  doc_content : string;
  doc_uploadDate : string;
  doc_wordCount : nat;
  doc_size : string;
  doc_analysis : Analysis
}.

Definition handleFileUpload (now : Z) (isoDate : string) (fileName : string)
  (text : string) : Document :=
  {| doc_id := now;
     doc_name := fileName;
     doc_content := text;
     doc_uploadDate := isoDate;
     doc_wordCount := List.length (split_whitespace text);
     doc_size :=
       JSNumber.toFixed 2
         (JSNumber.div (JSNumber.of_nat (String.length text))
                       (JSNumber.of_nat 1024)) ++ " KB";
     doc_analysis := performDocumentAnalysis text |}.

Record ScoredSentence : Type := mkScored {
  sentence : string;
  score : nat
}.

(** [query.toLowerCase().split(/\s+/)] *)
Definition queryWords (query : string) : list string :=
  split_whitespace (toLowerCase query).

(** [if (lowerSentence.includes(word)) score += 1] *)
Definition score_step (lowerSentence : string) (score : nat) (w : string)
  : nat :=
  if includes lowerSentence w then score + 1 else score.

(** The [forEach] over [queryWords] inside the [map] callback. *)
Definition score_sentence (qwords : list string) (s : string) : nat :=
  let lowerSentence := toLowerCase s in
  fold_left (score_step lowerSentence) qwords 0.

Definition scoredSentences (content query : string) : list ScoredSentence :=
  map (fun s => mkScored (trim s) (score_sentence (queryWords query) s))
      (split_sentences content).

(** [(a, b) => b.score - a.score] *)
Definition by_score_desc (a b : ScoredSentence) : option Z :=
  Some (Z.of_nat (score b) - Z.of_nat (score a))%Z.

(** [scoredSentences.filter(s => s.score > 0).sort(...).slice(0, 5)] *)
Definition selected_sentences (content query : string)
  : list ScoredSentence :=
  JSArray.slice0 5
    (JSArray.sort by_score_desc
       (filter (fun s => 0 <? score s) (scoredSentences content query))).

Definition relevantSentences (content query : string) : list string :=
  map sentence (selected_sentences content query).

Definition extractRelevantContext (content query : string) : string :=
  let sentences := split_sentences content in
  let relevant := relevantSentences content query in
  if 0 <? List.length relevant
  then JSArray.join ". " relevant
  else JSArray.join ". " (JSArray.slice0 5 sentences).

Definition summary_reply (context : string) : string :=
  "Here's a summary based on the document: "
  ++ JSArray.join ". " (JSArray.slice0 3 (split_sentences context)) ++ ".".

Definition numbers_reply (numbers : list string) (context : string) : string :=
  "Based on the document, I found the following numbers: "
  ++ JSArray.join ", " (JSArray.slice0 5 numbers) ++ ". "
  ++ hd EmptyString (split_char "." context) ++ ".".

Definition definition_reply (context : string) : string :=
  match split_sentences context with
  | s0 :: _ => trim s0 ++ "."
  | [] => "I found some relevant information in the document."
  end.

Definition default_reply (context : string) : string :=
  "Based on the document: "
  ++ JSArray.join ". " (JSArray.slice0 3 (split_sentences context)) ++ ".".

(** The second [if] of [generateAnswer]: it returns only when the query
    asks for a count and [context.match(/\d+/g)] is not [null]. *)
Definition counting_branch (context queryLower : string) : option string :=
  if includes queryLower "how many" || includes queryLower "count" then
    match match_class is_digit context with
    | [] => None
    | numbers => Some (numbers_reply numbers context)
    end
  else None.

Definition generateAnswer (context query : string) : string :=
  let queryLower := toLowerCase query in
  if includes queryLower "summar" then summary_reply context
  else
    match counting_branch context queryLower with
    | Some reply => reply
    | None =>
        if includes queryLower "what is" || includes queryLower "define"
        then definition_reply context
        else default_reply context
    end.

(* ================================================================= *)
(** ** The session: component state and its handlers *)

(** [type: 'user' | 'system' | 'ai'] *)
Inductive Role : Type := RoleUser | RoleSystem | RoleAi.

(** An entry of [chatHistory]; only the answers carry a [context]. *)
Record ChatTurn : Type := mkChatTurn {
  turn_type : Role;
  turn_message : string;
  turn_context : option string
}.

(** [activeTab] *)
Inductive Tab : Type := TabUpload | TabChat | TabLibrary.

(** The [useState] cells of the component, the value kept by
    [window.storage] under ['documents-list'] (the list that
    [JSON.stringify] wrote: numbers, strings and arrays of them, which
    [JSON.parse] gives back unchanged), and the callbacks that
    [setTimeout] holds, each with the document and the query its closure
    captured. *)
Record AppState : Type := mkAppState {
  st_documents : list Document;
  st_selectedDoc : option Document;
  st_query : string;
  st_chatHistory : list ChatTurn;
  st_isProcessing : bool;
  st_activeTab : Tab;
  st_docAnalysis : option Analysis;
  st_showAnalysis : bool;
  st_stored : option (list Document);
  st_timers : list (Document * string)
}.

(** The state at mount, over a store that holds [stored]. *)
Definition initial_state (stored : option (list Document)) : AppState :=
  {| st_documents := [];
     st_selectedDoc := None;
     st_query := EmptyString;
     st_chatHistory := [];
     st_isProcessing := false;
     st_activeTab := TabUpload;
     st_docAnalysis := None;
     st_showAnalysis := false;
     st_stored := stored;
     st_timers := [] |}.

Definition setDocuments (docs : list Document) (st : AppState) : AppState :=
  {| st_documents := docs;
     st_selectedDoc := st_selectedDoc st;
     st_query := st_query st;
     st_chatHistory := st_chatHistory st;
     st_isProcessing := st_isProcessing st;
     st_activeTab := st_activeTab st;
     st_docAnalysis := st_docAnalysis st;
     st_showAnalysis := st_showAnalysis st;
     st_stored := st_stored st;
     st_timers := st_timers st |}.

Definition setSelectedDoc (d : option Document) (st : AppState) : AppState :=
  {| st_documents := st_documents st;
     st_selectedDoc := d;
     st_query := st_query st;
     st_chatHistory := st_chatHistory st;
     st_isProcessing := st_isProcessing st;
     st_activeTab := st_activeTab st;
     st_docAnalysis := st_docAnalysis st;
     st_showAnalysis := st_showAnalysis st;
     st_stored := st_stored st;
     st_timers := st_timers st |}.

Definition setQuery (q : string) (st : AppState) : AppState :=
  {| st_documents := st_documents st;
     st_selectedDoc := st_selectedDoc st;
     st_query := q;
     st_chatHistory := st_chatHistory st;
     st_isProcessing := st_isProcessing st;
     st_activeTab := st_activeTab st;
     st_docAnalysis := st_docAnalysis st;
     st_showAnalysis := st_showAnalysis st;
     st_stored := st_stored st;
     st_timers := st_timers st |}.

Definition setChatHistory (h : list ChatTurn) (st : AppState) : AppState :=
  {| st_documents := st_documents st;
     st_selectedDoc := st_selectedDoc st;
     st_query := st_query st;
     st_chatHistory := h;
     st_isProcessing := st_isProcessing st;
     st_activeTab := st_activeTab st;
     st_docAnalysis := st_docAnalysis st;
     st_showAnalysis := st_showAnalysis st;
     st_stored := st_stored st;
     st_timers := st_timers st |}.

Definition setIsProcessing (b : bool) (st : AppState) : AppState :=
  {| st_documents := st_documents st;
     st_selectedDoc := st_selectedDoc st;
     st_query := st_query st;
     st_chatHistory := st_chatHistory st;
     st_isProcessing := b;
     st_activeTab := st_activeTab st;
     st_docAnalysis := st_docAnalysis st;
     st_showAnalysis := st_showAnalysis st;
     st_stored := st_stored st;
     st_timers := st_timers st |}.

Definition setActiveTab (t : Tab) (st : AppState) : AppState :=
  {| st_documents := st_documents st;
     st_selectedDoc := st_selectedDoc st;
     st_query := st_query st;
     st_chatHistory := st_chatHistory st;
     st_isProcessing := st_isProcessing st;
     st_activeTab := t;
     st_docAnalysis := st_docAnalysis st;
     st_showAnalysis := st_showAnalysis st;
     st_stored := st_stored st;
     st_timers := st_timers st |}.

Definition setDocAnalysis (a : option Analysis) (st : AppState) : AppState :=
  {| st_documents := st_documents st;
     st_selectedDoc := st_selectedDoc st;
     st_query := st_query st;
     st_chatHistory := st_chatHistory st;
     st_isProcessing := st_isProcessing st;
     st_activeTab := st_activeTab st;
     st_docAnalysis := a;
     st_showAnalysis := st_showAnalysis st;
     st_stored := st_stored st;
     st_timers := st_timers st |}.

Definition setShowAnalysis (b : bool) (st : AppState) : AppState :=
  {| st_documents := st_documents st;
     st_selectedDoc := st_selectedDoc st;
     st_query := st_query st;
     st_chatHistory := st_chatHistory st;
     st_isProcessing := st_isProcessing st;
     st_activeTab := st_activeTab st;
     st_docAnalysis := st_docAnalysis st;
     st_showAnalysis := b;
     st_stored := st_stored st;
     st_timers := st_timers st |}.

(** [window.storage.set('documents-list', ...)] *)
Definition storage_set (docs : list Document) (st : AppState) : AppState :=
  {| st_documents := st_documents st;
     st_selectedDoc := st_selectedDoc st;
     st_query := st_query st;
     st_chatHistory := st_chatHistory st;
     st_isProcessing := st_isProcessing st;
     st_activeTab := st_activeTab st;
     st_docAnalysis := st_docAnalysis st;
     st_showAnalysis := st_showAnalysis st;
     st_stored := Some docs;
     st_timers := st_timers st |}.

(** [setTimeout(..., 1000)] and the removal of the callback that runs:
    equal delays run in the order they were set. *)
Definition setTimers (ts : list (Document * string)) (st : AppState)
  : AppState :=
  {| st_documents := st_documents st;
     st_selectedDoc := st_selectedDoc st;
     st_query := st_query st;
     st_chatHistory := st_chatHistory st;
     st_isProcessing := st_isProcessing st;
     st_activeTab := st_activeTab st;
     st_docAnalysis := st_docAnalysis st;
     st_showAnalysis := st_showAnalysis st;
     st_stored := st_stored st;
     st_timers := ts |}.

(** [loadStoredData]: the stored list replaces [documents]; nothing
    happens when the store has no value or [get] throws. *)
Definition loadStoredData (st : AppState) : AppState :=
  match st_stored st with
  | Some docs => setDocuments docs st
  | None => st
  end.

(** [saveDocuments]; [ok] is false when [window.storage.set] throws,
    which the [catch] only logs. *)
Definition saveDocuments (ok : bool) (docs : list Document) (st : AppState)
  : AppState :=
  if ok then storage_set docs st else st.

(** The character U+0022 of the two messages below. *)
Definition dquote : string := String (ascii_of_nat 34) EmptyString.

Definition uploaded_message (fileName : string) : string :=
  "Document " ++ dquote ++ fileName ++ dquote
  ++ " uploaded successfully! I've analyzed it and I'm ready to "
  ++ "answer your questions.".

Definition chatting_message (docName : string) : string :=
  "Now chatting with " ++ dquote ++ docName ++ dquote
  ++ ". Ask me anything!".

(** [handleFileUpload] up to [reader.readAsText(file)]: without a file it
    returns at once. *)
Definition handleFileUpload_begin (file : option string) (st : AppState)
  : AppState :=
  match file with
  | None => st
  | Some _ => setIsProcessing true st
  end.

(** [reader.onload].  [captured] is the value of [documents] in the
    render whose [handleFileUpload] started the read; [text] is
    [event.target.result]. *)
Definition handleFileUpload_onload (captured : list Document) (now : Z)
  (isoDate fileName text : string) (ok : bool) (st : AppState) : AppState :=
  let doc := handleFileUpload now isoDate fileName text in
  let newDocs := (captured ++ [doc])%list in
  setIsProcessing false
    (setChatHistory
       [mkChatTurn RoleSystem (uploaded_message fileName) None]
       (setActiveTab TabChat
          (setSelectedDoc (Some doc)
             (saveDocuments ok newDocs (setDocuments newDocs st))))).

(** [reader.onerror] and the [catch] of [handleFileUpload] *)
Definition handleFileUpload_onerror (st : AppState) : AppState :=
  setIsProcessing false st.

(** [context.slice(0, 200) + '...'] *)
Definition context_excerpt (context : string) : string :=
  substring 0 200 context ++ "...".

(** [handleQuery] up to [setTimeout]. *)
Definition handleQuery (st : AppState) : AppState :=
  match st_selectedDoc st with
  | None => st
  | Some doc =>
      if String.eqb (trim (st_query st)) EmptyString then st
      else
        setTimers (st_timers st ++ [(doc, st_query st)])%list
          (setIsProcessing true
             (setChatHistory
                (st_chatHistory st
                 ++ [mkChatTurn RoleUser (st_query st) None])%list
                st))
  end.

(** The callback of [setTimeout] in [handleQuery], for the document and
    the query of its closure. *)
Definition answer_turn (doc : Document) (asked : string) : ChatTurn :=
  let context := extractRelevantContext (doc_content doc) asked in
  let answer := generateAnswer context asked in
  mkChatTurn RoleAi answer (Some (context_excerpt context)).

Definition handleQuery_timeout (st : AppState) : AppState :=
  match st_timers st with
  | [] => st
  | (doc, asked) :: rest =>
      setTimers rest
        (setQuery EmptyString
           (setIsProcessing false
              (setChatHistory
                 (st_chatHistory st ++ [answer_turn doc asked])%list st)))
  end.

(** [deleteDocument] *)
Definition deleteDocument (ok : bool) (docId : Z) (st : AppState)
  : AppState :=
  let newDocs :=
    filter (fun d => negb (Z.eqb (doc_id d) docId)) (st_documents st) in
  let st' := saveDocuments ok newDocs (setDocuments newDocs st) in
  match st_selectedDoc st with
  | Some d =>
      if Z.eqb (doc_id d) docId
      then setChatHistory [] (setSelectedDoc None st')
      else st'
  | None => st'
  end.

(** [showDocumentAnalysis] *)
Definition showDocumentAnalysis (doc : Document) (st : AppState)
  : AppState :=
  setShowAnalysis true (setDocAnalysis (Some (doc_analysis doc)) st).

(** The [onClick] of the "Chat" button of a library entry. *)
Definition chat_with (doc : Document) (st : AppState) : AppState :=
  setChatHistory [mkChatTurn RoleSystem (chatting_message (doc_name doc)) None]
    (setActiveTab TabChat (setSelectedDoc (Some doc) st)).

(** What can happen to the component.  Each event is one handler or
    callback run to its end: nothing else happens while it awaits
    [saveDocuments].  The buttons of a library entry exist for the
    documents of the list only, here the [i]-th one; the "Q&A Chat" tab is
    disabled and "View Analysis" is absent without a selected document. *)
Inductive Event : Type :=
| EStoredDataLoaded
| EFileChosen (file : option string)
| EFileRead (captured : list Document) (now : Z)
            (isoDate fileName text : string) (ok : bool)
| EFileError
| ETyped (q : string)
| ESubmit
| ETimeout
| EChatWith (i : nat)
| EDelete (i : nat) (ok : bool)
| EViewAnalysis
| EHideAnalysis
| ETab (t : Tab).

Definition step (st : AppState) (e : Event) : AppState :=
  match e with
  | EStoredDataLoaded => loadStoredData st
  | EFileChosen file => handleFileUpload_begin file st
  | EFileRead captured now isoDate fileName text ok =>
      handleFileUpload_onload captured now isoDate fileName text ok st
  | EFileError => handleFileUpload_onerror st
  | ETyped q => setQuery q st
  | ESubmit => handleQuery st
  | ETimeout => handleQuery_timeout st
  | EChatWith i =>
      match nth_error (st_documents st) i with
      | Some doc => chat_with doc st
      | None => st
      end
  | EDelete i ok =>
      match nth_error (st_documents st) i with
      | Some doc => deleteDocument ok (doc_id doc) st
      | None => st
      end
  | EViewAnalysis =>
      match st_selectedDoc st with
      | Some doc => showDocumentAnalysis doc st
      | None => st
      end
  | EHideAnalysis => setShowAnalysis false st
  | ETab t =>
      match t, st_selectedDoc st with
      | TabChat, None => st
      | _, _ => setActiveTab t st
      end
  end.

Definition run (events : list Event) (st : AppState) : AppState :=
  fold_left step events st.

(* ================================================================= *)
(** ** Vocabulary of the properties *)

(** The cleaned words that [count_word] counts, in the order of the
    words. *)
Definition keyword_tokens (words : list string) : list string :=
  filter (fun c => 3 <? String.length c) (map clean_word words).

(** The keyword tokens of a text, in the order of the text. *)
Definition tokens (text : string) : list string :=
  keyword_tokens (split_words text).

(** A count that is a positive number. *)
Definition is_count (v : value) : Prop := exists n, v = VNum (S n).

(** The number an object holds for a name, 0 when it holds none. *)
Definition held (o : object) (k : string) : nat :=
  match get_own o k with
  | Some (VNum n) => n
  | _ => 0
  end.

(** The distinct elements of a list in the order of their first
    occurrence. *)
Fixpoint first_seen (l : list string) : list string :=
  match l with
  | [] => []
  | x :: l' => x :: filter (fun y => negb (String.eqb y x)) (first_seen l')
  end.

(** The order in which a plain object enumerates names created in the
    order [names]: array indices ascending, then the rest as created. *)
Definition enumeration_order (names : list string) : list string :=
  (JSArray.sort (fun a b => Some (index_of a - index_of b)%Z)
     (filter is_array_index names)
   ++ filter (fun k => negb (is_array_index k)) names)%list.

(** The comparator that sorts by an integer rank, ascending, and the
    order it produces. *)
Definition by_rank {A : Type} (rank : A -> Z) (a b : A) : option Z :=
  Some (rank a - rank b)%Z.

Definition rank_le {A : Type} (rank : A -> Z) (a b : A) : Prop :=
  (rank a <= rank b)%Z.

(** [by_score_desc] sorts by the negated score, ascending. *)
Definition neg_score (s : ScoredSentence) : Z := (- Z.of_nat (score s))%Z.

(** [x] stands somewhere before [y] in [l]. *)
Definition before {A : Type} (x y : A) (l : list A) : Prop :=
  exists l1 l2 l3, l = (l1 ++ x :: l2 ++ y :: l3)%list.

(** The number a count stands for. *)
Definition count_number (v : value) : nat :=
  match v with VNum n => n | _ => 0 end.

(** [by_count_desc] sorts entries that hold numbers by the negated
    count, ascending. *)
Definition neg_count (e : string * value) : Z :=
  (- Z.of_nat (count_number (snd e)))%Z.

Fixpoint ends_with (d : ascii -> bool) (s : string) : bool :=
  match s with
  | EmptyString => false
  | String c EmptyString => d c
  | String _ s' => ends_with d s'
  end.

(** Two whitespace characters in a row somewhere in [s]. *)
Fixpoint has_space_run (s : string) : bool :=
  match s with
  | EmptyString => false
  | String c s' => (is_space c && starts_with is_space s') || has_space_run s'
  end.

(** No lowercased query token is a substring of any lowercased
    sentence. *)
Definition no_sentence_matches (content query : string) : bool :=
  forallb
    (fun s => forallb (fun w => negb (includes (toLowerCase s) w))
                      (queryWords query))
    (split_sentences content).

(** Every character of [s] satisfies [p]. *)
Fixpoint all_chars (p : ascii -> bool) (s : string) : bool :=
  match s with
  | EmptyString => true
  | String c s' => p c && all_chars p s'
  end.

(** A non-empty run of decimal digits. *)
Definition is_numeral (s : string) : bool :=
  non_empty s && all_chars is_digit s.

(** A keyword: more than three characters, all of them lowercase letters
    or digits. *)
Definition is_keyword (s : string) : bool :=
  (3 <? String.length s) && all_chars is_lower_alnum s.

(** The selected document, when there is one, is in the library. *)
Definition selection_listed (st : AppState) : Prop :=
  forall d, st_selectedDoc st = Some d -> In d (st_documents st).

(** The store holds the list of the library. *)
Definition store_in_sync (st : AppState) : Prop :=
  st_stored st = Some (st_documents st).

(** The event does not come with a failed [window.storage.set]. *)
Definition save_succeeds (e : Event) : bool :=
  match e with
  | EFileRead _ _ _ _ _ ok => ok
  | EDelete _ ok => ok
  | _ => true
  end.

Definition is_stored_data_loaded (e : Event) : bool :=
  match e with
  | EStoredDataLoaded => true
  | _ => false
  end.

(** A new mount, once its [loadStoredData] has read the store, shows the
    library of [st]. *)
Definition reload_gives_library (st : AppState) : Prop :=
  st_documents (loadStoredData (initial_state (st_stored st)))
  = st_documents st.

(* ================================================================= *)
(** ** Facts about [sort], [slice] and list order *)

Module ArrayFacts.
Import JSArray.

Section AnyComparator.
Context {A : Type}.
Variable comparefn : A -> A -> option Z.

Lemma length_insert (x : A) (l : list A) :
  List.length (insert comparefn x l) = S (List.length l).
Proof.
  induction l as [|y l IH]; simpl; [reflexivity|].
  destruct (goes_after comparefn x y); simpl; congruence.
Qed.

Lemma length_sort (l : list A) :
  List.length (sort comparefn l) = List.length l.
Proof.
  induction l as [|x l IH]; simpl; [reflexivity|].
  now rewrite length_insert, IH.
Qed.

Lemma In_insert (x y : A) (l : list A) :
  In y (insert comparefn x l) <-> x = y \/ In y l.
Proof.
  induction l as [|z l IH]; simpl; [tauto|].
  destruct (goes_after comparefn x z); simpl; tauto.
Qed.

Lemma In_sort (y : A) (l : list A) :
  In y (sort comparefn l) <-> In y l.
Proof.
  induction l as [|x l IH]; simpl; [tauto|].
  rewrite In_insert; tauto.
Qed.

(** Elements that the comparator never orders against each other keep
    their relative positions: the sort is stable. *)
Section Stable.
Variable p : A -> bool.
Hypothesis p_unordered :
  forall x y, p x = true -> p y = true -> goes_after comparefn x y = false.

Lemma filter_insert (x : A) (l : list A) :
  filter p (insert comparefn x l) = filter p (x :: l).
Proof.
  induction l as [|y l IH]; [reflexivity|].
  simpl insert. destruct (goes_after comparefn x y) eqn:G; [|reflexivity].
  simpl in *. rewrite IH.
  destruct (p x) eqn:Px, (p y) eqn:Py; try reflexivity.
  rewrite (p_unordered x y Px Py) in G. discriminate.
Qed.

Lemma filter_sort (l : list A) :
  filter p (sort comparefn l) = filter p l.
Proof.
  induction l as [|x l IH]; [reflexivity|].
  simpl sort. rewrite filter_insert. simpl. now rewrite IH.
Qed.
End Stable.

End AnyComparator.

Section TwoComparators.
Context {A : Type}.
Variables c1 c2 : A -> A -> option Z.

Lemma insert_ext (x : A) (l : list A) :
  (forall y, In y l -> goes_after c1 x y = goes_after c2 x y) ->
  insert c1 x l = insert c2 x l.
Proof.
  induction l as [|y l IH]; intros H; [reflexivity|].
  simpl. rewrite <- (H y (or_introl eq_refl)).
  rewrite IH; [reflexivity|]. intros z Hz. apply H. now right.
Qed.

Lemma sort_ext (l : list A) :
  (forall x y, In x l -> In y l -> goes_after c1 x y = goes_after c2 x y) ->
  sort c1 l = sort c2 l.
Proof.
  induction l as [|x l IH]; intros H; [reflexivity|].
  simpl. rewrite IH.
  - apply insert_ext. intros y Hy. apply In_sort in Hy.
    apply H; simpl; auto.
  - intros a b Ha Hb. apply H; simpl; auto.
Qed.
End TwoComparators.

(** Sorting by an integer rank, ascending. *)
Section ByRank.
Context {A : Type}.
Variable rank : A -> Z.

Lemma goes_after_by_rank (a b : A) :
  goes_after (by_rank rank) a b = (rank b <? rank a)%Z.
Proof.
  unfold goes_after, by_rank.
  destruct (Z.ltb_spec 0 (rank a - rank b)), (Z.ltb_spec (rank b) (rank a));
    try reflexivity; lia.
Qed.

Lemma insert_sorted (x : A) (l : list A) :
  StronglySorted (rank_le rank) l ->
  StronglySorted (rank_le rank) (insert (by_rank rank) x l).
Proof.
  induction 1 as [|y l Hl IH Hy]; simpl.
  - constructor; constructor.
  - rewrite goes_after_by_rank. destruct (Z.ltb_spec (rank y) (rank x)).
    + constructor; [exact IH|].
      apply Forall_forall. intros z Hz. apply In_insert in Hz.
      destruct Hz as [<-|Hz]; [unfold rank_le; lia|].
      rewrite Forall_forall in Hy. now apply Hy.
    + constructor; [now constructor|].
      constructor; [exact H|].
      rewrite Forall_forall in *. intros z Hz.
      specialize (Hy z Hz). unfold rank_le in *. lia.
Qed.

Lemma sort_sorted (l : list A) :
  StronglySorted (rank_le rank) (sort (by_rank rank) l).
Proof.
  induction l as [|x l IH]; simpl; [constructor|].
  now apply insert_sorted.
Qed.

Lemma sort_stable (r : Z) (l : list A) :
  filter (fun a => (rank a =? r)%Z) (sort (by_rank rank) l)
  = filter (fun a => (rank a =? r)%Z) l.
Proof.
  apply filter_sort. intros x y Hx Hy.
  apply Z.eqb_eq in Hx, Hy. rewrite goes_after_by_rank.
  apply Z.ltb_ge. lia.
Qed.
End ByRank.

Lemma StronglySorted_firstn {A : Type} (R : A -> A -> Prop) (n : nat)
  (l : list A) :
  StronglySorted R l -> StronglySorted R (firstn n l).
Proof.
  intros H. revert n. induction H as [|x l Hl IH Hx]; intros [|n]; simpl;
    try constructor.
  - apply IH.
  - rewrite Forall_forall in *. intros y Hy. apply Hx.
    rewrite <- (firstn_skipn n l). apply in_or_app. now left.
Qed.

End ArrayFacts.

Module OrderFacts.

Section Before.
Context {A : Type}.

Lemma before_firstn (x y : A) (n : nat) (l : list A) :
  before x y (firstn n l) -> before x y l.
Proof.
  intros (l1 & l2 & l3 & E).
  exists l1, l2, (l3 ++ skipn n l)%list.
  rewrite <- (firstn_skipn n l) at 1. rewrite E.
  now rewrite <- !app_assoc, <- !app_comm_cons, <- app_assoc.
Qed.

Lemma before_filter (p : A -> bool) (x y : A) (l : list A) :
  p x = true -> p y = true -> before x y l -> before x y (filter p l).
Proof.
  intros Px Py (l1 & l2 & l3 & ->).
  exists (filter p l1), (filter p l2), (filter p l3).
  rewrite filter_app. simpl. rewrite Px, filter_app. simpl. now rewrite Py.
Qed.

Lemma filter_eq_app_cons (p : A -> bool) (x : A) (l k1 k2 : list A) :
  filter p l = (k1 ++ x :: k2)%list ->
  exists l1 l2, l = (l1 ++ x :: l2)%list /\ filter p l2 = k2.
Proof.
  revert k1. induction l as [|a l IH]; intros k1 E; simpl in E.
  - destruct k1; discriminate.
  - destruct (p a) eqn:Pa.
    + destruct k1 as [|b k1]; simpl in E.
      * injection E as -> E. now exists [], l.
      * injection E as -> E. destruct (IH _ E) as (l1 & l2 & -> & F).
        now exists (b :: l1), l2.
    + destruct (IH _ E) as (l1 & l2 & -> & F).
      now exists (a :: l1), l2.
Qed.

Lemma before_filter_inv (p : A -> bool) (x y : A) (l : list A) :
  before x y (filter p l) -> before x y l.
Proof.
  intros (k1 & k2 & k3 & E).
  destruct (filter_eq_app_cons _ _ _ _ _ E) as (l1 & r & -> & F).
  destruct (filter_eq_app_cons _ _ _ _ _ F) as (l2 & l3 & -> & _).
  now exists l1, l2, l3.
Qed.

Lemma before_app_r (x y : A) (k l : list A) :
  before x y l -> before x y (k ++ l).
Proof.
  intros (l1 & l2 & l3 & ->). exists (k ++ l1)%list, l2, l3.
  now rewrite <- app_assoc.
Qed.
End Before.

Lemma before_map {A B : Type} (f : A -> B) (x y : A) (l : list A) :
  before x y l -> before (f x) (f y) (map f l).
Proof.
  intros (l1 & l2 & l3 & ->).
  exists (map f l1), (map f l2), (map f l3).
  now rewrite map_app, map_cons, map_app, map_cons.
Qed.

Lemma before_map_inv {A B : Type} (f : A -> B) (a b : B) (l : list A) :
  before a b (map f l) ->
  exists x y, f x = a /\ f y = b /\ before x y l.
Proof.
  intros (k1 & k2 & k3 & E).
  apply map_eq_app in E. destruct E as (l1 & r & -> & _ & E).
  apply map_eq_cons in E. destruct E as (x & r' & -> & Hx & E).
  apply map_eq_app in E. destruct E as (l2 & r'' & -> & _ & E).
  apply map_eq_cons in E. destruct E as (y & l3 & -> & Hy & _).
  exists x, y. repeat split; trivial. now exists l1, l2, l3.
Qed.

(** Two elements of equal rank that a sort by rank leaves in some order
    were in that order before the sort. *)
Lemma before_sort_same_rank {A : Type} (rank : A -> Z) (x y : A)
  (l : list A) :
  rank x = rank y ->
  before x y (JSArray.sort (by_rank rank) l) -> before x y l.
Proof.
  intros E H.
  apply before_filter_inv with (p := fun a => (rank a =? rank x)%Z).
  rewrite <- (ArrayFacts.sort_stable rank (rank x) l).
  apply before_filter; trivial.
  - apply Z.eqb_refl.
  - rewrite E. apply Z.eqb_refl.
Qed.

End OrderFacts.

(* ================================================================= *)
(** ** Facts about strings *)

Module StringFacts.

Lemma length_append (s t : string) :
  String.length (s ++ t) = String.length s + String.length t.
Proof. induction s as [|c s IH]; simpl; [reflexivity|now rewrite IH]. Qed.

Lemma includes_empty (s : string) : includes s "" = true.
Proof. destruct s; reflexivity. Qed.

Lemma is_space_lower_char (c : ascii) :
  is_space (lower_char c) = is_space c.
Proof.
  destruct c as [[] [] [] [] [] [] [] []]; vm_compute; reflexivity.
Qed.

Lemma starts_with_toLowerCase (s : string) :
  starts_with is_space (toLowerCase s) = starts_with is_space s.
Proof. destruct s; simpl; [reflexivity|apply is_space_lower_char]. Qed.

Lemma ends_with_toLowerCase (s : string) :
  ends_with is_space (toLowerCase s) = ends_with is_space s.
Proof.
  induction s as [|c s IH]; [reflexivity|].
  destruct s as [|c' s]; simpl in *; [apply is_space_lower_char|exact IH].
Qed.





(** A string that starts with a separator splits into an empty first
    fragment. *)
Lemma split_class_leading (d : ascii -> bool) (s : string) :
  starts_with d s = true ->
  exists rest, split_class d false s = EmptyString :: rest.
Proof.
  destruct s as [|c s]; simpl; [discriminate|].
  intros ->. eauto.
Qed.

(** A string that ends with a separator splits into an empty last
    fragment. *)
Lemma split_class_trailing (d : ascii -> bool) (b : bool) (s : string) :
  ends_with d s = true ->
  exists l, split_class d b s = (l ++ [EmptyString])%list
            /\ (b = false -> l <> []).
Proof.
  revert b. induction s as [|c s IH]; intros b H; [discriminate|].
  destruct s as [|c' s].
  - simpl in H. simpl. rewrite H. destruct b.
    + exists []. split; [reflexivity|discriminate].
    + exists [EmptyString]. split; [reflexivity|discriminate].
  - change (ends_with d (String c' s) = true) in H.
    change (split_class d b (String c (String c' s)))
      with (if d c
            then if b then split_class d true (String c' s)
                 else EmptyString :: split_class d true (String c' s)
            else cons_head c (split_class d false (String c' s))).
    destruct (d c).
    + destruct (IH true H) as (l & -> & _). destruct b.
      * exists l. split; [reflexivity|discriminate].
      * exists (EmptyString :: l). split; [reflexivity|discriminate].
    + destruct (IH false H) as (l & -> & Hl).
      destruct l as [|f l]; [now contradiction Hl|].
      exists (String c f :: l). split; [reflexivity|discriminate].
Qed.

Lemma In_split_whitespace_empty (s : string) :
  starts_with is_space s = true \/ ends_with is_space s = true ->
  In EmptyString (split_class is_space false s).
Proof.
  intros [H|H].
  - destruct (split_class_leading _ _ H) as (rest & ->). now left.
  - destruct (split_class_trailing _ false _ H) as (l & -> & _).
    apply in_or_app. right. now left.
Qed.

End StringFacts.

(* ================================================================= *)
(** ** The retriever: [extractRelevantContext] *)

Module RetrieverFacts.

Section Score.
Variable lowerSentence : string.

Lemma fold_score_ge (ws : list string) (acc : nat) :
  acc <= fold_left (score_step lowerSentence) ws acc.
Proof.
  revert acc. induction ws as [|w ws IH]; intros acc; simpl; [lia|].
  etransitivity; [|apply IH]. unfold score_step.
  destruct (includes lowerSentence w); lia.
Qed.

Lemma fold_score_hit (ws : list string) (acc : nat) (w : string) :
  In w ws -> includes lowerSentence w = true ->
  acc < fold_left (score_step lowerSentence) ws acc.
Proof.
  revert acc. induction ws as [|v ws IH]; intros acc Hin Hw;
    [contradiction|].
  destruct Hin as [->|H]; simpl.
  - unfold score_step at 2. rewrite Hw.
    apply Nat.lt_le_trans with (acc + 1); [lia|apply fold_score_ge].
  - apply Nat.le_lt_trans with (score_step lowerSentence acc v);
      [|now apply IH].
    unfold score_step. destruct (includes lowerSentence v); lia.
Qed.

Lemma fold_score_miss (ws : list string) (acc : nat) :
  forallb (fun w => negb (includes lowerSentence w)) ws = true ->
  fold_left (score_step lowerSentence) ws acc = acc.
Proof.
  revert acc. induction ws as [|w ws IH]; intros acc H; simpl in *;
    [reflexivity|].
  apply andb_prop in H. destruct H as [Hw H].
  unfold score_step at 2. apply negb_true_iff in Hw. rewrite Hw.
  now apply IH.
Qed.
End Score.

Lemma score_sentence_hit (ws : list string) (s w : string) :
  In w ws -> includes (toLowerCase s) w = true -> 1 <= score_sentence ws s.
Proof. intros Hin Hw. apply (fold_score_hit _ ws 0 w Hin Hw). Qed.

Lemma score_sentence_miss (ws : list string) (s : string) :
  forallb (fun w => negb (includes (toLowerCase s) w)) ws = true ->
  score_sentence ws s = 0.
Proof. apply fold_score_miss. Qed.

Lemma filter_map_none {A B : Type} (p : B -> bool) (f : A -> B)
  (l : list A) :
  (forall x, In x l -> p (f x) = false) -> filter p (map f l) = [].
Proof.
  induction l as [|x l IH]; intros H; simpl; [reflexivity|].
  rewrite (H x (or_introl eq_refl)). apply IH.
  intros y Hy. apply H. now right.
Qed.

Lemma filter_map_all {A B : Type} (p : B -> bool) (f : A -> B)
  (l : list A) :
  (forall x, In x l -> p (f x) = true) -> filter p (map f l) = map f l.
Proof.
  induction l as [|x l IH]; intros H; simpl; [reflexivity|].
  rewrite (H x (or_introl eq_refl)). f_equal. apply IH.
  intros y Hy. apply H. now right.
Qed.

Lemma sort_by_score (l : list ScoredSentence) :
  JSArray.sort by_score_desc l = JSArray.sort (by_rank neg_score) l.
Proof.
  apply ArrayFacts.sort_ext. intros a b _ _.
  rewrite ArrayFacts.goes_after_by_rank.
  unfold JSArray.goes_after, by_score_desc, neg_score.
  destruct (Z.ltb_spec 0 (Z.of_nat (score b) - Z.of_nat (score a))),
           (Z.ltb_spec (- Z.of_nat (score b)) (- Z.of_nat (score a)));
    try reflexivity; lia.
Qed.

Lemma selected_none (content query : string) :
  no_sentence_matches content query = true ->
  selected_sentences content query = [].
Proof.
  intros H. unfold selected_sentences, scoredSentences.
  rewrite filter_map_none; [reflexivity|].
  intros s Hs. simpl.
  unfold no_sentence_matches in H. rewrite forallb_forall in H.
  now rewrite (score_sentence_miss _ _ (H s Hs)).
Qed.

(** When every sentence matches some query token, nothing is filtered
    out before the five best are taken. *)
Lemma length_relevant_all_match (content query : string) :
  (forall s, In s (split_sentences content) ->
             1 <= score_sentence (queryWords query) s) ->
  List.length (relevantSentences content query)
  = min 5 (List.length (split_sentences content)).
Proof.
  intros H.
  unfold relevantSentences, selected_sentences, scoredSentences,
    JSArray.slice0.
  rewrite filter_map_all
    by (intros s Hs; simpl; apply Nat.ltb_lt, (H s Hs)).
  now rewrite length_map, length_firstn, ArrayFacts.length_sort, length_map.
Qed.

End RetrieverFacts.

(** When no lowercased query token is a substring of any lowercased
    sentence of the content (so that every sentence scores 0),
    [extractRelevantContext] joins with ". " the first five fragments that
    [split_sentences] keeps, in the order of the document and as they are:
    this path does not trim them. *)
Theorem fallback_returns_first_five_sentences (content query : string) :
  no_sentence_matches content query = true ->
  extractRelevantContext content query
  = JSArray.join ". " (firstn 5 (split_sentences content))
  /\ (List.length (split_sentences content) <= 5 ->
      extractRelevantContext content query
      = JSArray.join ". " (split_sentences content)).
Proof.
  intros H.
  assert (E : extractRelevantContext content query
              = JSArray.join ". " (firstn 5 (split_sentences content))).
  { unfold extractRelevantContext, relevantSentences.
    now rewrite (RetrieverFacts.selected_none _ _ H). }
  split; [exact E|].
  intros Hlen. now rewrite E, firstn_all2.
Qed.

Lemma fallback_returns_first_five_sentences_witness :
  extractRelevantContext "One. Two. Three. Four. Five. Six. Seven" "zebra"
  = JSArray.join ". "
      (firstn 5 (split_sentences "One. Two. Three. Four. Five. Six. Seven"))
  /\ (List.length (split_sentences "One. Two. Three. Four. Five. Six. Seven")
      <= 5 ->
      extractRelevantContext "One. Two. Three. Four. Five. Six. Seven" "zebra"
      = JSArray.join ". "
          (split_sentences "One. Two. Three. Four. Five. Six. Seven")).
Proof.
  apply (fallback_returns_first_five_sentences
           "One. Two. Three. Four. Five. Six. Seven" "zebra").
  vm_compute. reflexivity.
Defined.

(** C7.  [extractRelevantContext] is a function of its two arguments:
    equal inputs give equal outputs.  Its selection is stable: two selected
    sentences with equal scores stand in the result in the order they have
    in the document, and the returned string is the selection joined by
    ". ". *)
Theorem extractRelevantContext_deterministic_stable
  (content1 query1 content2 query2 : string) :
  content1 = content2 -> query1 = query2 ->
  extractRelevantContext content1 query1
  = extractRelevantContext content2 query2
  /\ (forall a b,
        before a b (selected_sentences content1 query1) ->
        score a = score b ->
        before a b (scoredSentences content1 query1))
  /\ (selected_sentences content1 query1 <> [] ->
      extractRelevantContext content1 query1
      = JSArray.join ". "
          (map sentence (selected_sentences content1 query1))).
Proof.
  intros <- <-. split; [reflexivity|]. split.
  - intros a b Hab Hscore. unfold selected_sentences, JSArray.slice0 in Hab.
    apply OrderFacts.before_firstn in Hab.
    rewrite RetrieverFacts.sort_by_score in Hab.
    apply OrderFacts.before_sort_same_rank in Hab;
      [|unfold neg_score; now rewrite Hscore].
    now apply OrderFacts.before_filter_inv in Hab.
  - intros Hsel. unfold extractRelevantContext, relevantSentences.
    destruct (selected_sentences content1 query1); [contradiction|].
    reflexivity.
Qed.

Lemma extractRelevantContext_deterministic_stable_witness :
  let content := "Red fox. Blue fox. Red hen. Old fox" in
  let query := "red fox" in
  extractRelevantContext content query = extractRelevantContext content query
  /\ (forall a b,
        before a b (selected_sentences content query) ->
        score a = score b ->
        before a b (scoredSentences content query))
  /\ (selected_sentences content query <> [] ->
      extractRelevantContext content query
      = JSArray.join ". " (map sentence (selected_sentences content query))).
Proof.
  intros content query.
  apply (extractRelevantContext_deterministic_stable
           content query content query);
    reflexivity.
Defined.

(** C10, as the code has it.  A query that begins or ends with whitespace
    splits into tokens one of which is the empty string; every sentence
    then scores at least 1, and for a document with at least one sentence
    the selection is not empty, so the result is the selection and not the
    first-five-sentences fallback. *)
Theorem padded_query_matches_every_sentence (content query : string) :
  starts_with is_space query = true \/ ends_with is_space query = true ->
  In EmptyString (queryWords query)
  /\ (forall s, 1 <= score_sentence (queryWords query) s)
  /\ (split_sentences content <> [] ->
      relevantSentences content query <> []
      /\ extractRelevantContext content query
         = JSArray.join ". " (relevantSentences content query)).
Proof.
  intros H.
  assert (Hin : In EmptyString (queryWords query)).
  { apply StringFacts.In_split_whitespace_empty.
    now rewrite StringFacts.starts_with_toLowerCase,
                StringFacts.ends_with_toLowerCase. }
  assert (Hscore : forall s, 1 <= score_sentence (queryWords query) s).
  { intros s. apply RetrieverFacts.score_sentence_hit with (w := EmptyString);
      [exact Hin|apply StringFacts.includes_empty]. }
  assert (Hlen : List.length (relevantSentences content query)
                 = min 5 (List.length (split_sentences content))).
  { apply RetrieverFacts.length_relevant_all_match. intros s _.
    apply Hscore. }
  repeat split; trivial.
  - intros Hrel. rewrite Hrel in Hlen.
    destruct (split_sentences content); [contradiction|discriminate].
  - unfold extractRelevantContext.
    destruct (relevantSentences content query); [|reflexivity].
    destruct (split_sentences content); [contradiction|discriminate].
Qed.

Lemma padded_query_matches_every_sentence_witness :
  In EmptyString (queryWords " zebra")
  /\ (forall s, 1 <= score_sentence (queryWords " zebra") s)
  /\ (split_sentences " Hello. World" <> [] ->
      relevantSentences " Hello. World" " zebra" <> []
      /\ extractRelevantContext " Hello. World" " zebra"
         = JSArray.join ". " (relevantSentences " Hello. World" " zebra")).
Proof.
  apply (padded_query_matches_every_sentence " Hello. World" " zebra").
  left. reflexivity.
Defined.

(** C10, as stated, fails: a run of two spaces inside the query "a  b" is
    one separator, the tokens are "a" and "b" with no empty token, the
    sentence of the document "Hello" scores 0 and the fallback is taken. *)
Lemma interior_space_run_gives_no_empty_token :
  has_space_run "a  b" = true
  /\ queryWords "a  b" = ["a"; "b"]
  /\ ~ In EmptyString (queryWords "a  b")
  /\ scoredSentences "Hello" "a  b" = [mkScored "Hello" 0]
  /\ relevantSentences "Hello" "a  b" = [].
Proof.
  repeat split; try (vm_compute; reflexivity).
  vm_compute. intros [H|[H|[]]]; discriminate.
Qed.

(* ================================================================= *)
(** ** The answerer: [generateAnswer] *)

Module AnswererFacts.


Lemma counting_branch_no_digits (context queryLower : string) :
  match_class is_digit context = [] ->
  counting_branch context queryLower = None.
Proof.
  intros H. unfold counting_branch. rewrite H.
  now destruct (includes queryLower "how many" || includes queryLower "count").
Qed.

End AnswererFacts.



(** C2, as the code has it.  For a query that contains "how many" or
    "count" and not "summar", run on a context without any digit, the
    counting branch does not return and the remaining tests apply in their
    order: the definition reply when the query contains "what is" or
    "define", and otherwise the default reply, "Based on the document: "
    with the first three sentences of the context. *)
Theorem counting_query_without_digits (context query : string) :
  includes (toLowerCase query) "summar" = false ->
  includes (toLowerCase query) "how many"
  || includes (toLowerCase query) "count" = true ->
  match_class is_digit context = [] ->
  generateAnswer context query
  = if includes (toLowerCase query) "what is"
       || includes (toLowerCase query) "define"
    then definition_reply context
    else "Based on the document: "
         ++ JSArray.join ". " (firstn 3 (split_sentences context)) ++ ".".
Proof.
  intros Hs _ Hd. unfold generateAnswer.
  rewrite Hs, (AnswererFacts.counting_branch_no_digits _ _ Hd).
  reflexivity.
Qed.

Lemma counting_query_without_digits_witness :
  generateAnswer "Staff work here. They like it" "how many staff?"
  = if includes (toLowerCase "how many staff?") "what is"
       || includes (toLowerCase "how many staff?") "define"
    then definition_reply "Staff work here. They like it"
    else "Based on the document: "
         ++ JSArray.join ". "
              (firstn 3 (split_sentences "Staff work here. They like it"))
         ++ ".".
Proof.
  apply (counting_query_without_digits
           "Staff work here. They like it" "how many staff?");
    reflexivity.
Defined.

(** C2, as stated, fails: the query "how many? what is it" contains
    "how many" and not "summar", the context has no digit, and the answer is
    the definition reply "Hello world.", not the default reply. *)
Lemma counting_query_falls_to_definition :
  includes (toLowerCase "how many? what is it") "summar" = false
  /\ includes (toLowerCase "how many? what is it") "how many" = true
  /\ match_class is_digit "Hello world. Foo bar" = []
  /\ generateAnswer "Hello world. Foo bar" "how many? what is it"
     = "Hello world."
  /\ generateAnswer "Hello world. Foo bar" "how many? what is it"
     <> default_reply "Hello world. Foo bar".
Proof.
  repeat split; try (vm_compute; reflexivity).
  vm_compute. discriminate.
Qed.

(** C9, as stated, fails for some documents that contain the sentence:
    here another sentence with the same score comes first and fills the
    five listed numbers, and neither "42" nor "3" is listed. *)
Lemma employees_answer_can_miss_numbers :
  let content :=
    "1 2 4 5 6 employees are. There are 42 employees in 3 departments." in
  let query := "How many employees are there? Count them." in
  let context := extractRelevantContext content query in
  includes content "There are 42 employees in 3 departments." = true
  /\ firstn 5 (match_class is_digit context) = ["1"; "2"; "4"; "5"; "6"]
  /\ generateAnswer context query
     = "Based on the document, I found the following numbers: 1, 2, 4, 5, 6. "
       ++ "1 2 4 5 6 employees are.".
Proof. repeat split; vm_compute; reflexivity. Qed.

(* ================================================================= *)
(** ** The analyzer: [performDocumentAnalysis] *)

Module ListFacts.

Lemma filter_filter {A : Type} (p q : A -> bool) (l : list A) :
  filter p (filter q l) = filter (fun x => q x && p x) l.
Proof.
  induction l as [|x l IH]; simpl; [reflexivity|].
  destruct (q x); simpl; [destruct (p x)|]; now rewrite IH.
Qed.

Lemma length_filter_split {A : Type} (p : A -> bool) (l : list A) :
  List.length (filter p l) + List.length (filter (fun x => negb (p x)) l)
  = List.length l.
Proof.
  induction l as [|x l IH]; simpl; [reflexivity|].
  destruct (p x); simpl; lia.
Qed.

Lemma length_filter_drop {A : Type} (p : A -> bool) (x : A) (l : list A) :
  In x l -> p x = false -> List.length (filter p l) < List.length l.
Proof.
  intros Hin Hp. rewrite <- (length_filter_split p l).
  assert (In x (filter (fun y => negb (p y)) l)) as H.
  { apply filter_In. now rewrite Hp. }
  destruct (filter (fun y => negb (p y)) l); [destruct H|simpl; lia].
Qed.

Lemma map_filter_fst {A B : Type} (p : A -> bool) (l : list (A * B)) :
  map fst (filter (fun e => p (fst e)) l) = filter p (map fst l).
Proof.
  induction l as [|e l IH]; simpl; [reflexivity|].
  destruct (p (fst e)); simpl; now rewrite IH.
Qed.

Lemma map_insert {A B : Type} (f : A -> B) (c : B -> B -> option Z)
  (x : A) (l : list A) :
  map f (JSArray.insert (fun a b => c (f a) (f b)) x l)
  = JSArray.insert c (f x) (map f l).
Proof.
  induction l as [|y l IH]; simpl; [reflexivity|].
  change (JSArray.goes_after (fun a b => c (f a) (f b)) x y)
    with (JSArray.goes_after c (f x) (f y)).
  destruct (JSArray.goes_after c (f x) (f y)); simpl; now rewrite ?IH.
Qed.

Lemma map_sort {A B : Type} (f : A -> B) (c : B -> B -> option Z)
  (l : list A) :
  map f (JSArray.sort (fun a b => c (f a) (f b)) l)
  = JSArray.sort c (map f l).
Proof.
  induction l as [|x l IH]; simpl; [reflexivity|].
  now rewrite map_insert, IH.
Qed.

End ListFacts.

Module FirstSeenFacts.

Lemma first_seen_filter (p : string -> bool) (l : list string) :
  first_seen (filter p l) = filter p (first_seen l).
Proof.
  induction l as [|x l IH]; simpl; [reflexivity|].
  destruct (p x) eqn:Px; simpl.
  - rewrite IH, !ListFacts.filter_filter. f_equal.
    apply filter_ext. intros y. apply andb_comm.
  - rewrite IH, ListFacts.filter_filter.
    apply filter_ext_in. intros y _.
    destruct (String.eqb_spec y x) as [->|]; [now rewrite Px|reflexivity].
Qed.

Lemma In_first_seen (x : string) (l : list string) :
  In x (first_seen l) <-> In x l.
Proof.
  induction l as [|y l IH]; simpl; [tauto|].
  rewrite filter_In, IH.
  destruct (String.eqb_spec x y) as [->|N]; simpl; [tauto|].
  split; [tauto|]. intros [E|H]; [now symmetry in E|tauto].
Qed.

Lemma NoDup_first_seen (l : list string) : NoDup (first_seen l).
Proof.
  induction l as [|x l IH]; simpl; constructor.
  - rewrite filter_In, String.eqb_refl. intros [_ H]. discriminate.
  - now apply NoDup_filter.
Qed.

Lemma length_first_seen (l : list string) :
  List.length (first_seen l) = List.length (nodup string_dec l).
Proof.
  apply Permutation.Permutation_length, Permutation.NoDup_Permutation.
  - apply NoDup_first_seen.
  - apply NoDup_nodup.
  - intros x. now rewrite In_first_seen, nodup_In.
Qed.

End FirstSeenFacts.

Module ObjectFacts.

Lemma keys_set (o : object) (k : string) (v : value) :
  map fst (set o k v)
  = if existsb (String.eqb k) (map fst o) then map fst o
    else (map fst o ++ [k])%list.
Proof.
  induction o as [|[k' v'] o IH]; simpl; [reflexivity|].
  rewrite (String.eqb_sym k k').
  destruct (String.eqb k' k) eqn:E; simpl; [reflexivity|].
  rewrite IH. now destruct (existsb (String.eqb k) (map fst o)).
Qed.

Lemma keys_count_word (o : object) (w : string) :
  map fst (count_word o w)
  = (map fst o
     ++ filter (fun t => negb (existsb (String.eqb t) (map fst o)))
          (keyword_tokens [w]))%list.
Proof.
  unfold count_word, keyword_tokens. simpl.
  destruct (3 <? String.length (clean_word w)); simpl.
  - rewrite keys_set.
    destruct (existsb (String.eqb (clean_word w)) (map fst o));
      simpl; [now rewrite app_nil_r|reflexivity].
  - now rewrite app_nil_r.
Qed.

(** The names of the word-frequency object are the keyword tokens in the
    order of their first occurrence, after the names it started with. *)
Lemma keys_fold (words : list string) (o : object) :
  map fst (fold_left count_word words o)
  = (map fst o
     ++ filter (fun t => negb (existsb (String.eqb t) (map fst o)))
          (first_seen (keyword_tokens words)))%list.
Proof.
  revert o. induction words as [|w words IH]; intros o.
  - simpl. now rewrite app_nil_r.
  - simpl fold_left. rewrite IH. unfold count_word, keyword_tokens.
    simpl map. simpl filter.
    destruct (3 <? String.length (clean_word w)); [|reflexivity].
    fold (keyword_tokens words). simpl first_seen. rewrite keys_set.
    set (c := clean_word w). set (fs := first_seen (keyword_tokens words)).
    simpl filter.
    destruct (existsb (String.eqb c) (map fst o)) eqn:Hc; simpl.
    + f_equal. rewrite ListFacts.filter_filter.
      apply filter_ext_in. intros t _.
      destruct (String.eqb_spec t c) as [->|]; [now rewrite Hc|reflexivity].
    + rewrite <- app_assoc. simpl. do 2 f_equal.
      rewrite ListFacts.filter_filter.
      apply filter_ext. intros t. rewrite existsb_app. simpl.
      rewrite orb_false_r, negb_orb. apply andb_comm.
Qed.

Lemma keys_wordFreq (words : list string) :
  map fst (wordFreq words) = first_seen (keyword_tokens words).
Proof.
  unfold wordFreq. rewrite keys_fold. simpl.
  apply forallb_filter_id, forallb_forall. reflexivity.
Qed.

Lemma get_own_set (o : object) (k k' : string) (v : value) :
  get_own (set o k v) k' = if String.eqb k k' then Some v else get_own o k'.
Proof.
  induction o as [|[k0 v0] o IH]; simpl; [reflexivity|].
  destruct (String.eqb_spec k0 k) as [->|N]; simpl.
  - now destruct (String.eqb k k').
  - rewrite IH. destruct (String.eqb_spec k0 k') as [->|]; [|reflexivity].
    destruct (String.eqb_spec k k'); [congruence|reflexivity].
Qed.

Lemma held_set (o : object) (k k' : string) (n : nat) :
  held (set o k (VNum n)) k' = if String.eqb k k' then n else held o k'.
Proof.
  unfold held. rewrite get_own_set. now destruct (String.eqb k k').
Qed.

Lemma get_own_In (o : object) (k : string) (v : value) :
  get_own o k = Some v -> In (k, v) o.
Proof.
  induction o as [|[k0 v0] o IH]; simpl; [discriminate|].
  destruct (String.eqb_spec k0 k) as [->|N].
  - intros [= ->]. now left.
  - intros H. right. now apply IH.
Qed.

Lemma In_get_own (o : object) (k : string) (v : value) :
  NoDup (map fst o) -> In (k, v) o -> get_own o k = Some v.
Proof.
  induction o as [|[k0 v0] o IH]; simpl; [contradiction|].
  intros Hnd [[= -> ->]|Hin].
  - now rewrite String.eqb_refl.
  - inversion Hnd as [|? ? Hnot Hnd']; subst.
    destruct (String.eqb_spec k0 k) as [->|N]; [|now apply IH].
    exfalso. apply Hnot. now apply (in_map fst) in Hin.
Qed.

Lemma Forall_set (P : string * value -> Prop) (o : object) (k : string)
  (v : value) :
  (forall k', P (k', v)) -> Forall P o -> Forall P (set o k v).
Proof.
  intros Hv. induction 1 as [|[k0 v0] o H0 Ho IH]; simpl.
  - constructor; [apply Hv|constructor].
  - destruct (String.eqb k0 k); constructor; auto.
Qed.

(** What [count_word] stores for a token, as long as the object holds
    positive numbers and the token is not an inherited name. *)
Lemma counted_value (o : object) (c : string) :
  Forall (fun e => is_count (snd e)) o -> c <> "constructor" ->
  plus_one (or_else (get o c) (VNum 0)) = VNum (S (held o c)).
Proof.
  intros Ho Hc. unfold get, held.
  destruct (get_own o c) as [v|] eqn:G.
  - apply get_own_In in G. rewrite Forall_forall in Ho.
    destruct (Ho _ G) as [n Hn]. simpl in Hn. now subst v.
  - unfold get_inherited.
    destruct (String.eqb_spec c "constructor"); [contradiction|reflexivity].
Qed.

Lemma wordFreq_fold (words : list string) (o : object)
  (k : string) :
  ~ In "constructor" (keyword_tokens words) ->
  Forall (fun e => is_count (snd e)) o ->
  Forall (fun e => is_count (snd e)) (fold_left count_word words o)
  /\ held (fold_left count_word words o) k
     = held o k + count_occ string_dec (keyword_tokens words) k.
Proof.
  revert o.
  induction words as [|w ws IH]; intros o Hno Ho; simpl fold_left.
  - split; [exact Ho|simpl; lia].
  - unfold keyword_tokens in Hno. simpl in Hno.
    unfold keyword_tokens at 1. simpl map. simpl filter.
    fold (keyword_tokens ws) in *.
    unfold count_word at 2 4.
    destruct (3 <? String.length (clean_word w)).
    + assert (Hc : clean_word w <> "constructor").
      { intros E. apply Hno. left. exact E. }
      assert (Hws : ~ In "constructor" (keyword_tokens ws)).
      { intros H. apply Hno. now right. }
      rewrite (counted_value o _ Ho Hc).
      destruct
        (IH (set o (clean_word w) (VNum (S (held o (clean_word w))))) Hws)
        as [I1 I2].
      { apply Forall_set; [|exact Ho]. intros k'. simpl. now eexists. }
      split; [exact I1|]. rewrite I2, held_set. simpl count_occ.
      destruct (string_dec (clean_word w) k) as [->|N].
      * rewrite String.eqb_refl. lia.
      * apply String.eqb_neq in N. rewrite N. lia.
    + apply IH; trivial.
Qed.

(** Without the inherited name among the tokens, the object maps each
    token to the number of its occurrences. *)
Lemma wordFreq_counts (words : list string) :
  ~ In "constructor" (keyword_tokens words) ->
  Forall (fun e => snd e
            = VNum (count_occ string_dec (keyword_tokens words) (fst e))
            /\ is_count (snd e))
         (wordFreq words).
Proof.
  intros Hno. apply Forall_forall. intros [k v] Hin. simpl.
  destruct (wordFreq_fold words empty k Hno (Forall_nil _))
    as [I1 I2].
  fold (wordFreq words) in I1, I2.
  rewrite Forall_forall in I1. pose proof (I1 _ Hin) as [n Hn].
  simpl in Hn. split; [|now exists n].
  assert (G : get_own (wordFreq words) k = Some v).
  { apply In_get_own; trivial. rewrite keys_wordFreq.
    apply FirstSeenFacts.NoDup_first_seen. }
  unfold held in I2. rewrite G in I2. simpl in I2. subst v.
  now rewrite I2.
Qed.

End ObjectFacts.

Module AnalyzerFacts.

Lemma In_entries (e : string * value) (o : object) :
  In e (entries o) -> In e o.
Proof.
  unfold entries. intros H. apply in_app_or in H.
  destruct H as [H|H].
  - apply ArrayFacts.In_sort in H. now apply filter_In in H.
  - now apply filter_In in H.
Qed.

Lemma length_entries (o : object) :
  List.length (entries o) = List.length o.
Proof.
  unfold entries. rewrite length_app, ArrayFacts.length_sort.
  apply (ListFacts.length_filter_split (fun p => is_array_index (fst p))).
Qed.

Lemma keys_entries (o : object) :
  map fst (entries o) = enumeration_order (map fst o).
Proof.
  unfold entries, enumeration_order. rewrite map_app. f_equal.
  - rewrite (ListFacts.map_sort fst
               (fun a b => Some (index_of a - index_of b)%Z)).
    f_equal. apply (ListFacts.map_filter_fst is_array_index).
  - apply (ListFacts.map_filter_fst (fun k => negb (is_array_index k))).
Qed.

Lemma sort_by_count (l : list (string * value)) :
  Forall (fun e => is_count (snd e)) l ->
  JSArray.sort by_count_desc l = JSArray.sort (by_rank neg_count) l.
Proof.
  intros H. rewrite Forall_forall in H.
  apply ArrayFacts.sort_ext. intros a b Ha Hb.
  rewrite ArrayFacts.goes_after_by_rank.
  destruct (H a Ha) as [na Ea], (H b Hb) as [nb Eb].
  unfold JSArray.goes_after, by_count_desc, neg_count. rewrite Ea, Eb.
  unfold subtract, count_number.
  destruct (Z.ltb_spec 0 (Z.of_nat (S nb) - Z.of_nat (S na))),
           (Z.ltb_spec (- Z.of_nat (S nb)) (- Z.of_nat (S na)));
    try reflexivity; lia.
Qed.

Lemma StronglySorted_map {A B : Type} (R : A -> A -> Prop)
  (R' : B -> B -> Prop) (f : A -> B) (l : list A) :
  (forall a b, R a b -> R' (f a) (f b)) ->
  StronglySorted R l -> StronglySorted R' (map f l).
Proof.
  intros HR. induction 1 as [|x l Hl IH Hx]; simpl; constructor; trivial.
  rewrite Forall_forall in *. intros y Hy.
  apply in_map_iff in Hy. destruct Hy as (z & <- & Hz). auto.
Qed.

End AnalyzerFacts.

(** C4, as the code has it.  For a text none of whose keyword tokens is
    "constructor" (a name every plain object inherits), [topWords] has
    min(10, number of distinct tokens) entries, each with the number of
    occurrences of its token, in descending order of count; entries with
    equal counts follow the order in which the frequency object enumerates
    its names: the tokens that are array indices (canonical decimal
    numerals below 2^32 - 1) first, in ascending numeric order, then the
    other tokens in the order they were first encountered. *)
Theorem topWords_length_and_order (text : string) :
  ~ In "constructor" (tokens text) ->
  let top := topWords (performDocumentAnalysis text) in
  List.length top = min 10 (List.length (nodup string_dec (tokens text)))
  /\ Forall (fun e => count e
                      = VNum (count_occ string_dec (tokens text) (word e)))
            top
  /\ StronglySorted
       (fun a b => count_number (count b) <= count_number (count a)) top
  /\ (forall a b,
        before a b top -> count a = count b ->
        before (word a) (word b)
               (enumeration_order (first_seen (tokens text)))).
Proof.
  intros Hno. unfold tokens in *. simpl. unfold top_words, JSArray.slice0.
  set (words := split_words text) in *.
  pose proof (ObjectFacts.wordFreq_counts words Hno) as Ho.
  pose proof (ObjectFacts.keys_wordFreq words) as Hkeys.
  set (o := wordFreq words) in *.
  assert (HE : Forall (fun e => is_count (snd e)) (entries o)).
  { rewrite Forall_forall in *. intros e He.
    apply AnalyzerFacts.In_entries in He. now apply Ho. }
  rewrite (AnalyzerFacts.sort_by_count _ HE).
  repeat split.
  - rewrite length_map, length_firstn, ArrayFacts.length_sort,
      AnalyzerFacts.length_entries.
    now rewrite <- FirstSeenFacts.length_first_seen, <- Hkeys, length_map.
  - rewrite Forall_forall in *. intros kw Hkw.
    apply in_map_iff in Hkw. destruct Hkw as (e & <- & He). simpl.
    apply Ho, AnalyzerFacts.In_entries.
    apply (ArrayFacts.In_sort (by_rank neg_count)).
    rewrite <- (firstn_skipn 10 (JSArray.sort _ _)).
    apply in_or_app. now left.
  - apply AnalyzerFacts.StronglySorted_map
      with (R := rank_le neg_count).
    + intros a b. unfold rank_le, neg_count. simpl. lia.
    + apply ArrayFacts.StronglySorted_firstn, ArrayFacts.sort_sorted.
  - intros a b Hab Hcount.
    apply OrderFacts.before_map_inv in Hab.
    destruct Hab as (ea & eb & <- & <- & Hab). cbn [word count] in *.
    apply OrderFacts.before_firstn in Hab.
    apply OrderFacts.before_sort_same_rank in Hab;
      [|unfold neg_count; now rewrite Hcount].
    apply (OrderFacts.before_map fst) in Hab.
    now rewrite AnalyzerFacts.keys_entries, Hkeys in Hab.
Qed.

Lemma topWords_length_and_order_witness :
  let text := "Apple 2024, pear 1999; apple pie!" in
  let top := topWords (performDocumentAnalysis text) in
  ~ In "constructor" (tokens text)
  /\ List.length top = min 10 (List.length (nodup string_dec (tokens text)))
  /\ Forall (fun e => count e
                      = VNum (count_occ string_dec (tokens text) (word e)))
            top
  /\ StronglySorted
       (fun a b => count_number (count b) <= count_number (count a)) top
  /\ (forall a b,
        before a b top -> count a = count b ->
        before (word a) (word b)
               (enumeration_order (first_seen (tokens text)))).
Proof.
  intros text top.
  assert (Hno : ~ In "constructor" (tokens text)).
  { vm_compute. intuition discriminate. }
  split; [exact Hno|].
  exact (topWords_length_and_order text Hno).
Defined.

(** C4, as stated, fails on tokens made of digits: in "2024 1999" both
    tokens occur once and "2024" is encountered first, but [topWords] lists
    "1999" before "2024". *)
Lemma digit_tokens_are_not_kept_in_first_seen_order :
  let text := "2024 1999" in
  let top := topWords (performDocumentAnalysis text) in
  top = [mkKeywordCount "1999" (VNum 1); mkKeywordCount "2024" (VNum 1)]
  /\ first_seen (tokens text) = ["2024"; "1999"]
  /\ ~ (forall a b,
          before a b top -> count a = count b ->
          before (word a) (word b) (first_seen (tokens text))).
Proof.
  intros text top. split; [reflexivity|]. split; [reflexivity|].
  intros H.
  specialize (H (mkKeywordCount "1999" (VNum 1))
                (mkKeywordCount "2024" (VNum 1))).
  destruct H as (l1 & l2 & l3 & E).
  - now exists [], [], [].
  - reflexivity.
  - change (first_seen (tokens text)) with ["2024"; "1999"] in E.
    cbn [word] in E.
    destruct l1 as [|x [|y l1]]; try discriminate.
    + injection E as _ E. destruct l2; discriminate.
    + injection E as _ _ E. destruct l1; discriminate.
Qed.

(** A token equal to an inherited name is not counted: the first read
    yields the function [Object], and adding 1 makes a string of it. *)
Lemma constructor_token_is_not_counted :
  topWords (performDocumentAnalysis "The constructor runs")
  = [mkKeywordCount "constructor" (VFnText 1);
     mkKeywordCount "runs" (VNum 1)].
Proof. reflexivity. Qed.

(** The average of a text without sentences is never a decimal numeral:
    the division is by zero. *)
Lemma zero_sentences_average (text : string) :
  sentenceCount (performDocumentAnalysis text) = 0 ->
  let avg := avgWordsPerSentence (performDocumentAnalysis text) in
  (avg = "NaN" \/ avg = "Infinity" \/ avg = "-Infinity")
  /\ (wordCount (performDocumentAnalysis text) = 0 -> avg = "NaN").
Proof.
  simpl. intros ->. split.
  - change (JSNumber.of_nat 0) with (S754_zero false).
    destruct (JSNumber.of_nat _) as [s|s| |s m e]; simpl; try tauto;
      destruct s; simpl; tauto.
  - intros ->. reflexivity.
Qed.

(** C1.  The analysis of the empty text: all counts are 0, there are no
    top words, the reading time is 0, and [avgWordsPerSentence] is the
    string "NaN", the result of dividing 0 by 0; a text of punctuation only
    gives "Infinity". *)
Theorem empty_text_analysis :
  performDocumentAnalysis ""
  = {| sentenceCount := 0;
       wordCount := 0;
       paragraphCount := 0;
       avgWordsPerSentence := "NaN";
       topWords := [];
       readingTime := JSNumber.of_nat 0 |}
  /\ avgWordsPerSentence (performDocumentAnalysis "...") = "Infinity".
Proof. split; vm_compute; reflexivity. Qed.

(** The word count stored on the document counts the empty fragments
    that the analysis filters out: it is larger than the analysis's word
    count for a text that is empty or begins or ends with whitespace. *)
Lemma upload_wordCount_exceeds (now : Z) (isoDate fileName text : string) :
  text = "" \/ starts_with is_space text = true
  \/ ends_with is_space text = true ->
  wordCount (doc_analysis (handleFileUpload now isoDate fileName text))
  < doc_wordCount (handleFileUpload now isoDate fileName text).
Proof.
  intros H. simpl. unfold split_words.
  apply ListFacts.length_filter_drop with (x := EmptyString);
    [|reflexivity].
  destruct H as [->|H]; [now left|].
  now apply StringFacts.In_split_whitespace_empty.
Qed.

(** C3.  The [wordCount] field of the document built on upload is the
    number of all fragments of the split on whitespace, empty ones
    included: 1 for the empty content, where the analysis counts 0 words,
    and 2 for " hello", where the analysis counts 1. *)
Theorem upload_wordCount_counts_empty_fragments
  (now : Z) (isoDate fileName : string) :
  doc_wordCount (handleFileUpload now isoDate fileName "") = 1
  /\ wordCount (doc_analysis (handleFileUpload now isoDate fileName "")) = 0
  /\ doc_wordCount (handleFileUpload now isoDate fileName " hello") = 2
  /\ wordCount (doc_analysis (handleFileUpload now isoDate fileName " hello"))
     = 1.
Proof. repeat split; vm_compute; reflexivity. Qed.
(* ================================================================= *)
(** ** Scenarios *)

(** C8.  For the document "Cats are mammals. Dogs are mammals too. Cats and
    dogs are common pets." and the query "What is a cat?", the context
    returned by [extractRelevantContext] starts with "Cats are mammals":
    the three sentences score 1 each (through the token "a") and keep the
    order of the document. *)
Theorem cats_context_starts_with_first_sentence :
  let context :=
    extractRelevantContext
      "Cats are mammals. Dogs are mammals too. Cats and dogs are common pets."
      "What is a cat?" in
  prefix "Cats are mammals" context = true
  /\ context
     = "Cats are mammals. Dogs are mammals too. Cats and dogs are common pets".
Proof. split; vm_compute; reflexivity. Qed.


(* ================================================================= *)
(** ** Further properties of the splitting primitives *)

Module SplitFacts.

Lemma Forall_cons_head (P : string -> Prop) (c : ascii) (l : list string) :
  (forall f, P f -> P (String c f)) -> P (String c EmptyString) ->
  Forall P l -> Forall P (cons_head c l).
Proof.
  intros Hc H1 Hl. destruct Hl as [|f l Hf Hl]; simpl.
  - constructor; [exact H1|constructor].
  - constructor; [now apply Hc|exact Hl].
Qed.

(** No fragment of a split contains a separator. *)
Lemma split_class_no_separator (d : ascii -> bool) (b : bool) (s : string) :
  Forall (fun f => all_chars (fun c => negb (d c)) f = true)
         (split_class d b s).
Proof.
  revert b. induction s as [|c s IH]; intros b; simpl.
  - constructor; [reflexivity|constructor].
  - destruct (d c) eqn:E.
    + destruct b; [apply IH|]. constructor; [reflexivity|apply IH].
    + apply Forall_cons_head; [| |apply IH]; simpl; rewrite E; auto.
Qed.

(** The fragments keep any property that all characters of the string
    have. *)
Lemma split_class_all_chars (p d : ascii -> bool) (b : bool) (s : string) :
  all_chars p s = true ->
  Forall (fun f => all_chars p f = true) (split_class d b s).
Proof.
  revert b. induction s as [|c s IH]; intros b H; simpl in *.
  - constructor; [reflexivity|constructor].
  - apply andb_prop in H. destruct H as [Hc Hs].
    destruct (d c).
    + destruct b; [now apply IH|]. constructor; [reflexivity|now apply IH].
    + apply Forall_cons_head; [| |now apply IH]; simpl; rewrite Hc; auto.
Qed.

Lemma split_class_after_separator (d : ascii -> bool) (s : string) :
  starts_with d s = true ->
  split_class d false s = EmptyString :: split_class d true s.
Proof. destruct s as [|c s]; simpl; [discriminate|]. now intros ->. Qed.

(** Without a separator at either end of a non-empty string, no fragment
    is empty. *)
Lemma split_class_non_empty (d : ascii -> bool) (b : bool) (s : string) :
  s <> EmptyString -> ends_with d s = false ->
  (b = false -> starts_with d s = false) ->
  Forall (fun f => non_empty f = true) (split_class d b s).
Proof.
  revert b. induction s as [|c s IH]; intros b Hne Hend Hstart;
    [contradiction|].
  destruct s as [|c' s].
  - simpl in *. rewrite Hend. repeat constructor.
  - change (ends_with d (String c' s) = false) in Hend.
    change (split_class d b (String c (String c' s)))
      with (if d c
            then if b then split_class d true (String c' s)
                 else EmptyString :: split_class d true (String c' s)
            else cons_head c (split_class d false (String c' s))).
    destruct (d c) eqn:Dc.
    + destruct b; [|specialize (Hstart eq_refl); simpl in Hstart; congruence].
      apply IH; [discriminate|exact Hend|discriminate].
    + destruct (d c') eqn:Dc'.
      * rewrite split_class_after_separator by exact Dc'.
        unfold cons_head. constructor; [reflexivity|].
        apply IH; [discriminate|exact Hend|discriminate].
      * apply Forall_cons_head; try reflexivity.
        apply IH; [discriminate|exact Hend|]. intros _. exact Dc'.
Qed.

(** All fragments are empty exactly when the string is made of
    separators. *)
Lemma split_class_all_empty (d : ascii -> bool) (b : bool) (s : string) :
  Forall (fun f => non_empty f = false) (split_class d b s)
  <-> all_chars d s = true.
Proof.
  revert b. induction s as [|c s IH]; intros b; simpl.
  - split; [reflexivity|]. intros _. repeat constructor.
  - destruct (d c); simpl.
    + destruct b; [apply IH|]. rewrite <- (IH true).
      split; [now inversion 1|]. intros H. now constructor.
    + split; [|discriminate]. intros H.
      destruct (split_class d false s); simpl in H; inversion H; discriminate.
Qed.

Lemma is_newline_is_space (c : ascii) :
  is_newline c = true -> is_space c = true.
Proof.
  unfold is_newline, is_space. intros H. apply Nat.eqb_eq in H.
  now rewrite H.
Qed.

Lemma Forall_cons_head_iff (p : ascii -> bool) (c : ascii)
  (l : list string) :
  Forall (fun f => all_chars p f = true) (cons_head c l)
  <-> p c = true /\ Forall (fun f => all_chars p f = true) l.
Proof.
  destruct l as [|f l]; simpl.
  - split.
    + intros H. inversion H as [|? ? H1 _]; subst. simpl in H1.
      rewrite andb_true_r in H1. split; [exact H1|constructor].
    + intros [H _]. constructor; [simpl; now rewrite H|constructor].
  - split.
    + intros H. inversion H as [|? ? H1 H2]; subst. simpl in H1.
      apply andb_prop in H1. destruct H1. split; [|constructor]; trivial.
    + intros [Hc H]. inversion H; subst.
      constructor; [simpl; now rewrite Hc|trivial].
Qed.

(** The fragments between blank lines are all whitespace exactly when the
    string is. *)
Lemma split_blank_lines_all_space (b : bool) (s : string) :
  Forall (fun f => all_chars is_space f = true) (split_blank_lines b s)
  <-> all_chars is_space s = true.
Proof.
  revert b. induction s as [|c s IH]; intros b; simpl.
  - split; [reflexivity|]. intros _. repeat constructor.
  - destruct (is_newline c) eqn:N.
    + rewrite (is_newline_is_space c N). simpl.
      destruct b; [apply IH|].
      destruct (starts_with is_newline s).
      * rewrite <- (IH true). split; [now inversion 1|].
        intros H. now constructor.
      * rewrite Forall_cons_head_iff, (is_newline_is_space c N), IH. tauto.
    + rewrite Forall_cons_head_iff, IH, andb_true_iff. tauto.
Qed.

Lemma trimStart_all_space (s : string) :
  trimStart s = EmptyString <-> all_chars is_space s = true.
Proof.
  induction s as [|c s IH]; simpl; [tauto|].
  destruct (is_space c); simpl; [exact IH|].
  split; discriminate.
Qed.

Lemma trimEnd_empty (s : string) :
  trimEnd s = EmptyString -> all_chars is_space s = true.
Proof.
  induction s as [|c s IH]; simpl; [reflexivity|].
  destruct (trimEnd s); [|discriminate].
  destruct (is_space c); [|discriminate]. intros _. now apply IH.
Qed.

Lemma trimStart_head (s : string) :
  starts_with is_space (trimStart s) = false.
Proof.
  induction s as [|c s IH]; simpl; [reflexivity|].
  destruct (is_space c) eqn:E; [exact IH|]. simpl. exact E.
Qed.

(** A string is blank, in the sense of [s.trim().length > 0] being
    false, exactly when all its characters are whitespace. *)
Lemma trim_blank (s : string) :
  non_empty (trim s) = false <-> all_chars is_space s = true.
Proof.
  unfold non_empty, trim. rewrite Nat.ltb_ge. split.
  - intros H. apply trimStart_all_space.
    assert (E : trimEnd (trimStart s) = EmptyString).
    { destruct (trimEnd (trimStart s)); [reflexivity|simpl in H; lia]. }
    apply trimEnd_empty in E. pose proof (trimStart_head s) as Hh.
    destruct (trimStart s) as [|c t]; [reflexivity|].
    simpl in E, Hh. rewrite Hh in E. discriminate.
  - intros H. apply trimStart_all_space in H. rewrite H. simpl. lia.
Qed.

Lemma length_filter_zero {A : Type} (p : A -> bool) (l : list A) :
  List.length (filter p l) = 0 <-> Forall (fun x => p x = false) l.
Proof.
  induction l as [|x l IH]; simpl.
  - split; [constructor|reflexivity].
  - destruct (p x) eqn:E; simpl.
    + split; [discriminate|]. intros H. inversion H; congruence.
    + rewrite IH. split; [now constructor|now inversion 1].
Qed.

End SplitFacts.

(* ================================================================= *)
(** ** Further properties of the analyzer *)

Module CountFacts.

Lemma wordCount_zero (text : string) :
  List.length (split_words text) = 0 <-> all_chars is_space text = true.
Proof.
  unfold split_words, split_whitespace.
  rewrite SplitFacts.length_filter_zero.
  apply SplitFacts.split_class_all_empty.
Qed.

Lemma paragraphCount_zero (text : string) :
  List.length (split_paragraphs text) = 0
  <-> all_chars is_space text = true.
Proof.
  unfold split_paragraphs. rewrite SplitFacts.length_filter_zero.
  rewrite <- (SplitFacts.split_blank_lines_all_space false text).
  rewrite !Forall_forall. split; intros H f Hf;
    apply SplitFacts.trim_blank, H, Hf.
Qed.

Lemma sentenceCount_zero (text : string) :
  all_chars is_space text = true ->
  List.length (split_sentences text) = 0.
Proof.
  intros H. unfold split_sentences.
  apply SplitFacts.length_filter_zero.
  pose proof (SplitFacts.split_class_all_chars
                is_space is_terminator false text H) as HF.
  rewrite Forall_forall in *. intros f Hf.
  apply SplitFacts.trim_blank, HF, Hf.
Qed.

End CountFacts.

(** X1.  The counts of an analysis vanish together: a text has no word
    exactly when all its characters are whitespace, and exactly then it has
    no paragraph; a text with a sentence has a word and a paragraph. *)
Theorem counts_vanish_together (text : string) :
  let a := performDocumentAnalysis text in
  (wordCount a = 0 <-> all_chars is_space text = true)
  /\ (paragraphCount a = 0 <-> all_chars is_space text = true)
  /\ (wordCount a = 0 -> sentenceCount a = 0)
  /\ (0 < sentenceCount a -> 0 < wordCount a /\ 0 < paragraphCount a).
Proof.
  cbn [performDocumentAnalysis wordCount paragraphCount sentenceCount].
  pose proof (CountFacts.wordCount_zero text) as Hw.
  pose proof (CountFacts.paragraphCount_zero text) as Hp.
  pose proof (CountFacts.sentenceCount_zero text) as Hs.
  repeat split; try tauto.
  - destruct (all_chars is_space text); [|lia].
    specialize (Hs eq_refl). lia.
  - destruct (all_chars is_space text); [|lia].
    specialize (Hs eq_refl). lia.
Qed.

(** X2.  For a text that is not empty and neither begins nor ends with
    whitespace, the word count stored on the uploaded document equals the
    word count of its analysis. *)
Theorem upload_wordCount_agrees (now : Z) (isoDate fileName text : string) :
  text <> EmptyString ->
  starts_with is_space text = false ->
  ends_with is_space text = false ->
  doc_wordCount (handleFileUpload now isoDate fileName text)
  = wordCount (doc_analysis (handleFileUpload now isoDate fileName text)).
Proof.
  intros Hne Hs He.
  cbn [handleFileUpload doc_wordCount doc_analysis performDocumentAnalysis
       wordCount].
  unfold split_words. rewrite forallb_filter_id; [reflexivity|].
  apply forallb_forall, Forall_forall.
  now apply SplitFacts.split_class_non_empty.
Qed.

Lemma upload_wordCount_agrees_witness :
  doc_wordCount (handleFileUpload 7 "2024-01-01" "a.txt" "two  words")
  = wordCount
      (doc_analysis (handleFileUpload 7 "2024-01-01" "a.txt" "two  words")).
Proof.
  apply (upload_wordCount_agrees 7 "2024-01-01" "a.txt" "two  words");
    [discriminate|reflexivity|reflexivity].
Defined.

Module PermFacts.

Lemma Permutation_insert {A : Type} (c : A -> A -> option Z) (x : A)
  (l : list A) :
  Permutation (JSArray.insert c x l) (x :: l).
Proof.
  induction l as [|y l IH]; simpl; [reflexivity|].
  destruct (JSArray.goes_after c x y); [|reflexivity].
  rewrite IH. apply perm_swap.
Qed.

(** [sort] rearranges and neither drops nor adds an element. *)
Lemma Permutation_sort {A : Type} (c : A -> A -> option Z) (l : list A) :
  Permutation (JSArray.sort c l) l.
Proof.
  induction l as [|x l IH]; simpl; [reflexivity|].
  rewrite Permutation_insert. now constructor.
Qed.

Lemma Permutation_filter_split {A : Type} (p : A -> bool) (l : list A) :
  Permutation (filter p l ++ filter (fun x => negb (p x)) l) l.
Proof.
  induction l as [|x l IH]; simpl; [reflexivity|].
  destruct (p x); simpl.
  - now constructor.
  - rewrite <- Permutation_middle. now constructor.
Qed.

Lemma Permutation_entries (o : object) : Permutation (entries o) o.
Proof.
  unfold entries. rewrite Permutation_sort.
  apply (Permutation_filter_split (fun p => is_array_index (fst p))).
Qed.

Lemma NoDup_firstn {A : Type} (n : nat) (l : list A) :
  NoDup l -> NoDup (firstn n l).
Proof.
  intros H. rewrite <- (firstn_skipn n l) in H.
  now apply NoDup_app_remove_r in H.
Qed.

Lemma In_firstn {A : Type} (n : nat) (x : A) (l : list A) :
  In x (firstn n l) -> In x l.
Proof.
  intros H. rewrite <- (firstn_skipn n l). apply in_or_app. now left.
Qed.

(** In a list sorted by [R], everything in a prefix is related to
    everything after it. *)
Lemma StronglySorted_app_inv {A : Type} (R : A -> A -> Prop)
  (l1 l2 : list A) :
  StronglySorted R (l1 ++ l2) ->
  forall a b, In a l1 -> In b l2 -> R a b.
Proof.
  induction l1 as [|x l1 IH]; simpl; intros H a b Ha Hb; [contradiction|].
  inversion H as [|? ? Hs Hx]; subst.
  destruct Ha as [->|Ha].
  - rewrite Forall_forall in Hx. apply Hx, in_or_app. now right.
  - now apply IH.
Qed.

End PermFacts.

Module KeywordFacts.

Lemma strip_non_alnum_chars (s : string) :
  all_chars is_lower_alnum (strip_non_alnum s) = true.
Proof.
  induction s as [|c s IH]; simpl; [reflexivity|].
  destruct (is_lower_alnum c) eqn:E; simpl; [now rewrite E|exact IH].
Qed.

Lemma keyword_tokens_are_keywords (words : list string) :
  Forall (fun t => is_keyword t = true) (keyword_tokens words).
Proof.
  apply Forall_forall. intros t Ht.
  unfold keyword_tokens in Ht. apply filter_In in Ht.
  destruct Ht as [Ht Hlen]. apply in_map_iff in Ht.
  destruct Ht as (w & <- & _).
  unfold is_keyword. rewrite Hlen. apply strip_non_alnum_chars.
Qed.

Lemma top_words_keys (o : object) :
  map word (top_words o)
  = firstn 10 (map fst (JSArray.sort by_count_desc (entries o))).
Proof.
  unfold top_words, JSArray.slice0.
  rewrite map_map. cbn [word]. now rewrite firstn_map.
Qed.

End KeywordFacts.

(** X3.  Whatever the text, [topWords] has at most ten entries, their
    words are pairwise different, and each word is a token of the text:
    the cleaned form of one of its words, longer than three characters and
    made of lowercase letters and digits only. *)
Theorem topWords_are_distinct_keywords (text : string) :
  let top := topWords (performDocumentAnalysis text) in
  List.length top <= 10
  /\ NoDup (map word top)
  /\ Forall (fun e => is_keyword (word e) = true
                      /\ In (word e) (tokens text)) top.
Proof.
  cbn [performDocumentAnalysis topWords]. unfold tokens.
  set (words := split_words text).
  pose proof (ObjectFacts.keys_wordFreq words) as Hkeys.
  assert (Hperm : Permutation
                    (map fst (JSArray.sort by_count_desc
                                (entries (wordFreq words))))
                    (first_seen (keyword_tokens words))).
  { rewrite <- Hkeys. apply Permutation_map.
    rewrite PermFacts.Permutation_sort. apply PermFacts.Permutation_entries. }
  repeat split.
  - unfold top_words, JSArray.slice0. rewrite length_map.
    apply firstn_le_length.
  - rewrite KeywordFacts.top_words_keys. apply PermFacts.NoDup_firstn.
    apply (Permutation_NoDup (Permutation_sym Hperm)).
    apply FirstSeenFacts.NoDup_first_seen.
  - rewrite <- Forall_map with (f := word)
      (P := fun w => is_keyword w = true /\ In w (keyword_tokens words)).
    rewrite KeywordFacts.top_words_keys. apply Forall_forall.
    intros w Hw. apply PermFacts.In_firstn in Hw.
    apply (Permutation_in _ Hperm) in Hw.
    apply -> FirstSeenFacts.In_first_seen in Hw. split; [|exact Hw].
    pose proof (KeywordFacts.keyword_tokens_are_keywords words) as HK.
    rewrite Forall_forall in HK. now apply HK.
Qed.

(* ================================================================= *)
(** ** Further properties of the retriever *)

Module RankFacts.

Lemma StronglySorted_impl {A : Type} (R R' : A -> A -> Prop) (l : list A) :
  (forall a b, R a b -> R' a b) ->
  StronglySorted R l -> StronglySorted R' l.
Proof.
  intros HR. induction 1 as [|x l Hl IH Hx]; constructor; trivial.
  rewrite Forall_forall in *. auto.
Qed.

Lemma lower_char_idempotent (c : ascii) :
  lower_char (lower_char c) = lower_char c.
Proof.
  destruct c as [[] [] [] [] [] [] [] []]; vm_compute; reflexivity.
Qed.

Lemma toLowerCase_idempotent (s : string) :
  toLowerCase (toLowerCase s) = toLowerCase s.
Proof.
  induction s as [|c s IH]; simpl; [reflexivity|].
  now rewrite lower_char_idempotent, IH.
Qed.

Lemma trimEnd_tail (s : string) : ends_with is_space (trimEnd s) = false.
Proof.
  induction s as [|c s IH]; simpl; [reflexivity|].
  destruct (trimEnd s) as [|c' r] eqn:E.
  - destruct (is_space c) eqn:Sc; simpl; [reflexivity|exact Sc].
  - exact IH.
Qed.

Lemma trimEnd_head (s : string) :
  starts_with is_space s = false ->
  starts_with is_space (trimEnd s) = false.
Proof.
  destruct s as [|c s]; simpl; [reflexivity|]. intros H.
  destruct (trimEnd s); [rewrite H|]; simpl; exact H.
Qed.

Lemma trimStart_chars (p : ascii -> bool) (s : string) :
  all_chars p s = true -> all_chars p (trimStart s) = true.
Proof.
  induction s as [|c s IH]; simpl; [reflexivity|]. intros H.
  destruct (is_space c); [|exact H].
  apply andb_prop in H. now apply IH.
Qed.

Lemma trimEnd_chars (p : ascii -> bool) (s : string) :
  all_chars p s = true -> all_chars p (trimEnd s) = true.
Proof.
  induction s as [|c s IH]; simpl; [reflexivity|]. intros H.
  apply andb_prop in H. destruct H as [Hc Hs]. specialize (IH Hs).
  destruct (trimEnd s) as [|c' r].
  - destruct (is_space c); simpl; [reflexivity|now rewrite Hc].
  - simpl in *. now rewrite Hc.
Qed.

Lemma In_selected (content query : string) (x : ScoredSentence) :
  In x (selected_sentences content query) ->
  0 < score x
  /\ exists s, In s (split_sentences content) /\ sentence x = trim s.
Proof.
  unfold selected_sentences, JSArray.slice0. intros H.
  apply PermFacts.In_firstn, ArrayFacts.In_sort, filter_In in H.
  destruct H as [H Hpos]. split; [now apply Nat.ltb_lt|].
  unfold scoredSentences in H. apply in_map_iff in H.
  destruct H as (s & <- & Hs). now exists s.
Qed.

End RankFacts.

(** X4.  The retriever selects the best: of the sentences that score
    above 0 it keeps min(5, their number), in descending order of score,
    and no sentence it leaves out scores more than one it keeps. *)
Theorem selected_sentences_are_the_best (content query : string) :
  let selected := selected_sentences content query in
  let positive :=
    filter (fun s => 0 <? score s) (scoredSentences content query) in
  List.length selected = min 5 (List.length positive)
  /\ StronglySorted (fun a b => score b <= score a) selected
  /\ exists rest,
       Permutation (selected ++ rest) positive
       /\ forall a b, In a selected -> In b rest -> score b <= score a.
Proof.
  intros selected positive. subst selected.
  unfold selected_sentences, JSArray.slice0. fold positive.
  rewrite RetrieverFacts.sort_by_score.
  pose proof (ArrayFacts.sort_sorted neg_score positive) as Hsorted.
  set (sorted := JSArray.sort (by_rank neg_score) positive) in *.
  repeat split.
  - rewrite length_firstn. unfold sorted.
    now rewrite ArrayFacts.length_sort.
  - apply RankFacts.StronglySorted_impl with (R := rank_le neg_score).
    + unfold rank_le, neg_score. intros a b. lia.
    + now apply ArrayFacts.StronglySorted_firstn.
  - exists (skipn 5 sorted). split.
    + rewrite firstn_skipn. apply PermFacts.Permutation_sort.
    + intros a b Ha Hb. rewrite <- (firstn_skipn 5 sorted) in Hsorted.
      pose proof (PermFacts.StronglySorted_app_inv _ _ _ Hsorted a b Ha Hb)
        as H.
      unfold rank_le, neg_score in H. lia.
Qed.

Module ShapeFacts.

(** What is known of each sentence the retriever selects. *)
Lemma relevant_sentence_shape (content query r : string) :
  In r (relevantSentences content query) ->
  (exists s, In s (split_sentences content) /\ r = trim s)
  /\ non_empty r = true
  /\ starts_with is_space r = false
  /\ ends_with is_space r = false
  /\ all_chars (fun c => negb (is_terminator c)) r = true.
Proof.
  unfold relevantSentences. intros Hr.
  apply in_map_iff in Hr. destruct Hr as (x & <- & Hx).
  apply RankFacts.In_selected in Hx. destruct Hx as (_ & s & Hs & ->).
  split; [now exists s|].
  unfold split_sentences in Hs. apply filter_In in Hs.
  destruct Hs as [Hs Hne]. split; [exact Hne|].
  unfold trim. split; [|split].
  - apply RankFacts.trimEnd_head, SplitFacts.trimStart_head.
  - apply RankFacts.trimEnd_tail.
  - apply RankFacts.trimEnd_chars, RankFacts.trimStart_chars.
    pose proof (SplitFacts.split_class_no_separator is_terminator false
                  content) as H.
    rewrite Forall_forall in H. now apply H.
Qed.

End ShapeFacts.

(** X5.  The sentences that [extractRelevantContext] joins when some
    sentence matches: each comes from a sentence of the document, is not
    empty, has no whitespace at either end and contains none of the
    characters '.', '!' and '?'. *)
Theorem relevant_sentences_are_trimmed (content query : string) :
  Forall (fun r =>
            (exists s, In s (split_sentences content) /\ r = trim s)
            /\ non_empty r = true
            /\ starts_with is_space r = false
            /\ ends_with is_space r = false
            /\ all_chars (fun c => negb (is_terminator c)) r = true)
         (relevantSentences content query).
Proof.
  apply Forall_forall. intros r.
  apply ShapeFacts.relevant_sentence_shape.
Qed.

(** X6.  The case of the query does not matter: two queries with the same
    lowercase form retrieve the same context and get the same answer, and
    so does a query and its lowercase form. *)
Theorem query_case_is_ignored (content context query1 query2 : string) :
  toLowerCase query1 = toLowerCase query2 ->
  extractRelevantContext content query1
  = extractRelevantContext content query2
  /\ generateAnswer context query1 = generateAnswer context query2
  /\ extractRelevantContext content (toLowerCase query1)
     = extractRelevantContext content query1
  /\ generateAnswer context (toLowerCase query1)
     = generateAnswer context query1.
Proof.
  intros H.
  unfold extractRelevantContext, relevantSentences, selected_sentences,
    scoredSentences, queryWords, generateAnswer.
  now rewrite RankFacts.toLowerCase_idempotent, H.
Qed.

Lemma query_case_is_ignored_witness :
  extractRelevantContext "Cats purr. Dogs bark" "What IS a Cat"
  = extractRelevantContext "Cats purr. Dogs bark" "what is A CAT"
  /\ generateAnswer "Cats purr" "What IS a Cat"
     = generateAnswer "Cats purr" "what is A CAT"
  /\ extractRelevantContext "Cats purr. Dogs bark"
       (toLowerCase "What IS a Cat")
     = extractRelevantContext "Cats purr. Dogs bark" "What IS a Cat"
  /\ generateAnswer "Cats purr" (toLowerCase "What IS a Cat")
     = generateAnswer "Cats purr" "What IS a Cat".
Proof.
  apply (query_case_is_ignored "Cats purr. Dogs bark" "Cats purr"
           "What IS a Cat" "what is A CAT").
  reflexivity.
Defined.

(** A text made of whitespace and of the characters '.', '!' and '?'
    only, the empty text included, has no sentence. *)
Lemma no_sentence_in_punctuation (text : string) :
  all_chars (fun c => is_space c || is_terminator c) text = true ->
  split_sentences text = [].
Proof.
  intros H. unfold split_sentences.
  pose proof (SplitFacts.split_class_all_chars _ is_terminator false text H)
    as H1.
  pose proof (SplitFacts.split_class_no_separator is_terminator false text)
    as H2.
  rewrite Forall_forall in H1, H2.
  apply length_zero_iff_nil, SplitFacts.length_filter_zero, Forall_forall.
  intros f Hf. apply SplitFacts.trim_blank.
  specialize (H1 f Hf). specialize (H2 f Hf). clear Hf.
  induction f as [|c f IH]; simpl in *; [reflexivity|].
  apply andb_prop in H1, H2. destruct H1 as [A1 B1], H2 as [A2 B2].
  rewrite (IH B1 B2), andb_true_r.
  destruct (is_space c); [reflexivity|].
  destruct (is_terminator c); discriminate.
Qed.

(** X7.  A document without any sentence (see [no_sentence_in_punctuation])
    gives the empty context for every query, and the answer is then one of
    three fixed strings. *)
Theorem no_sentence_gives_fixed_answers (content query : string) :
  split_sentences content = [] ->
  let context := extractRelevantContext content query in
  context = EmptyString
  /\ (generateAnswer context query
      = "Here's a summary based on the document: ."
      \/ generateAnswer context query
         = "I found some relevant information in the document."
      \/ generateAnswer context query = "Based on the document: .").
Proof.
  intros H.
  assert (E : extractRelevantContext content query = EmptyString).
  { unfold extractRelevantContext, relevantSentences, selected_sentences,
      scoredSentences. now rewrite H. }
  simpl. rewrite E. split; [reflexivity|].
  unfold generateAnswer, counting_branch.
  destruct (includes (toLowerCase query) "summar"); [now left|].
  right.
  destruct (includes (toLowerCase query) "how many"
            || includes (toLowerCase query) "count");
    destruct (includes (toLowerCase query) "what is"
              || includes (toLowerCase query) "define");
    simpl; auto.
Qed.

Lemma no_sentence_gives_fixed_answers_witness :
  let context := extractRelevantContext " ...?! " "what is this" in
  context = EmptyString
  /\ (generateAnswer context "what is this"
      = "Here's a summary based on the document: ."
      \/ generateAnswer context "what is this"
         = "I found some relevant information in the document."
      \/ generateAnswer context "what is this" = "Based on the document: .").
Proof.
  apply (no_sentence_gives_fixed_answers " ...?! " "what is this").
  reflexivity.
Defined.

(* ================================================================= *)
(** ** Further properties of the answerer *)

Module ReplyFacts.

Lemma ends_with_append (d : ascii -> bool) (s t : string) :
  t <> EmptyString -> ends_with d (s ++ t) = ends_with d t.
Proof.
  intros Ht. induction s as [|c s IH]; [reflexivity|].
  simpl append. destruct (s ++ t) as [|c' r] eqn:E.
  - destruct s; simpl in E; [contradiction|discriminate].
  - exact IH.
Qed.

Lemma Forall_numeral_cons_head (c : ascii) (l : list string) :
  is_digit c = true -> Forall (fun s => is_numeral s = true) l ->
  Forall (fun s => is_numeral s = true) (cons_head c l).
Proof.
  intros Hc Hl. apply SplitFacts.Forall_cons_head; trivial.
  - intros f Hf. unfold is_numeral in *. apply andb_prop in Hf.
    destruct Hf as [_ Hf]. simpl. now rewrite Hc, Hf.
  - unfold is_numeral. simpl. now rewrite Hc.
Qed.

(** What [match(/\d+/g)] returns are numerals. *)
Lemma match_digits_numerals (s : string) :
  Forall (fun m => is_numeral m = true) (match_class is_digit s).
Proof.
  induction s as [|c s IH]; simpl; [constructor|].
  destruct (is_digit c) eqn:Dc; [|exact IH].
  destruct (starts_with is_digit s).
  - now apply Forall_numeral_cons_head.
  - constructor; [|exact IH]. unfold is_numeral. simpl. now rewrite Dc.
Qed.

(** There is a match exactly when the string has a digit. *)
Lemma match_digits_nil (s : string) :
  match_class is_digit s = []
  <-> all_chars (fun c => negb (is_digit c)) s = true.
Proof.
  induction s as [|c s IH]; simpl; [tauto|].
  destruct (is_digit c); simpl; [|exact IH].
  split; [|discriminate].
  destruct (starts_with is_digit s); [|discriminate].
  destruct (match_class is_digit s); discriminate.
Qed.

End ReplyFacts.

(** X8.  Every answer ends with a full stop; in particular no answer is
    empty. *)
Theorem answer_ends_with_full_stop (context query : string) :
  ends_with (Ascii.eqb ".") (generateAnswer context query) = true.
Proof.
  unfold generateAnswer, counting_branch, summary_reply, numbers_reply,
    definition_reply, default_reply.
  repeat match goal with
         | |- context [if ?b then _ else _] => destruct b
         | |- context [match ?l with [] => _ | _ :: _ => _ end] => destruct l
         end;
    rewrite ?ReplyFacts.ends_with_append; try reflexivity;
    try discriminate;
    match goal with
    | |- ?s ++ _ <> EmptyString =>
        destruct s; simpl; discriminate
    | _ => idtac
    end.
Qed.

(** X9.  For a query that contains "how many" or "count" and not
    "summar", run on a context that has a digit, the answer is the counting
    reply whether or not the query also contains "what is" or "define": it
    lists the first five runs of digits of the context, each a non-empty
    string of digits, and goes on with the context up to its first full
    stop. *)
Theorem counting_query_with_digits (context query : string) :
  includes (toLowerCase query) "summar" = false ->
  includes (toLowerCase query) "how many"
  || includes (toLowerCase query) "count" = true ->
  all_chars (fun c => negb (is_digit c)) context = false ->
  let numbers := match_class is_digit context in
  generateAnswer context query
  = "Based on the document, I found the following numbers: "
    ++ JSArray.join ", " (firstn 5 numbers) ++ ". "
    ++ hd EmptyString (split_char "." context) ++ "."
  /\ numbers <> []
  /\ Forall (fun n => is_numeral n = true) numbers.
Proof.
  intros Hs Hc Hd numbers.
  assert (Hn : numbers <> []).
  { intros E. apply ReplyFacts.match_digits_nil in E. congruence. }
  repeat split; trivial; [|apply ReplyFacts.match_digits_numerals].
  unfold generateAnswer, counting_branch. rewrite Hs, Hc. fold numbers.
  destruct numbers; [contradiction|reflexivity].
Qed.

Lemma counting_query_with_digits_witness :
  let numbers := match_class is_digit "Room 12 holds 30 seats. Define it" in
  generateAnswer "Room 12 holds 30 seats. Define it" "define the count"
  = "Based on the document, I found the following numbers: "
    ++ JSArray.join ", " (firstn 5 numbers) ++ ". "
    ++ hd EmptyString (split_char "." "Room 12 holds 30 seats. Define it")
    ++ "."
  /\ numbers <> []
  /\ Forall (fun n => is_numeral n = true) numbers.
Proof.
  apply (counting_query_with_digits
           "Room 12 holds 30 seats. Define it" "define the count");
    reflexivity.
Defined.

(* ================================================================= *)
(** ** Properties of the session *)

Module SessionFacts.

Lemma length_substring_0 (n : nat) (s : string) :
  String.length (substring 0 n s) = min n (String.length s).
Proof.
  revert n. induction s as [|c s IH]; intros [|n]; simpl; trivial.
  now rewrite IH.
Qed.

Lemma trim_all_space (s : string) :
  all_chars is_space s = true -> trim s = EmptyString.
Proof.
  intros H. unfold trim.
  apply SplitFacts.trimStart_all_space in H. now rewrite H.
Qed.

Lemma trim_not_all_space (s : string) :
  all_chars is_space s = false ->
  String.eqb (trim s) EmptyString = false.
Proof.
  intros H. apply String.eqb_neq. intros E.
  assert (B : non_empty (trim s) = false) by now rewrite E.
  apply SplitFacts.trim_blank in B. congruence.
Qed.

Lemma filter_other_ids (docId : Z) (docs : list Document) :
  Forall (fun d => doc_id d <> docId) docs ->
  filter (fun d => negb (Z.eqb (doc_id d) docId)) docs = docs.
Proof.
  intros H. apply forallb_filter_id, forallb_forall.
  rewrite Forall_forall in H. intros d Hd.
  apply negb_true_iff, Z.eqb_neq. now apply H.
Qed.

(** One event keeps the selected document in the library, unless it is
    the arrival of the stored list while a document is selected. *)
Lemma step_selection_listed (st : AppState) (e : Event) :
  selection_listed st ->
  (is_stored_data_loaded e = true -> st_selectedDoc st = None) ->
  selection_listed (step st e).
Proof.
  unfold selection_listed. intros Inv Hload.
  destruct e; cbn [step].
  - unfold loadStoredData. specialize (Hload eq_refl).
    destruct (st_stored st); cbn; rewrite Hload; discriminate.
  - destruct file; exact Inv.
  - unfold handleFileUpload_onload, saveDocuments.
    destruct ok; cbn; intros d [= <-]; apply in_or_app; right; now left.
  - exact Inv.
  - exact Inv.
  - unfold handleQuery. destruct (st_selectedDoc st) eqn:E; [|now rewrite E].
    destruct (String.eqb (trim (st_query st)) EmptyString); cbn;
      rewrite ?E; intros d' [= <-]; now apply Inv.
  - unfold handleQuery_timeout.
    destruct (st_timers st) as [|[doc asked] rest]; exact Inv.
  - destruct (nth_error (st_documents st) i) eqn:E; [|exact Inv].
    cbn. intros d' [= <-]. now apply nth_error_In in E.
  - destruct (nth_error (st_documents st) i) as [doc|]; [|exact Inv].
    unfold deleteDocument, saveDocuments.
    destruct (st_selectedDoc st) as [sel|] eqn:E;
      [destruct (Z.eqb (doc_id sel) (doc_id doc)) eqn:Hid|];
      destruct ok; cbn; rewrite ?E; try discriminate;
      intros d' [= <-]; apply filter_In; (split; [now apply Inv|]);
      now rewrite Hid.
  - destruct (st_selectedDoc st) eqn:E; [|now rewrite E].
    cbn. rewrite E. exact Inv.
  - exact Inv.
  - destruct t; try exact Inv.
    destruct (st_selectedDoc st) eqn:E; [|now rewrite E].
    cbn. rewrite E. exact Inv.
Qed.

Lemma step_store_in_sync (st : AppState) (e : Event) :
  save_succeeds e = true -> store_in_sync st -> store_in_sync (step st e).
Proof.
  unfold store_in_sync. intros Hok Inv.
  destruct e; cbn [step save_succeeds] in *; subst; trivial.
  - unfold loadStoredData. now rewrite Inv.
  - now destruct file.
  - unfold handleQuery. destruct (st_selectedDoc st); [|exact Inv].
    now destruct (String.eqb (trim (st_query st)) EmptyString).
  - unfold handleQuery_timeout.
    now destruct (st_timers st) as [|[doc asked] rest].
  - now destruct (nth_error (st_documents st) i).
  - destruct (nth_error (st_documents st) i) as [doc|]; [|exact Inv].
    unfold deleteDocument, saveDocuments.
    destruct (st_selectedDoc st) as [sel|];
      [destruct (Z.eqb (doc_id sel) (doc_id doc))|]; reflexivity.
  - now destruct (st_selectedDoc st).
  - destruct t; trivial. now destruct (st_selectedDoc st).
Qed.

End SessionFacts.

(** X10.  In a session whose handlers run one after the other, the
    selected document is always one of the library: uploads, deletions,
    switches of document, questions and their answers keep it so.  The
    stored list arriving from [loadStoredData] is left out, as it replaces
    the library without looking at the selection. *)
Theorem selection_stays_listed (events : list Event) (st : AppState) :
  selection_listed st ->
  forallb (fun e => negb (is_stored_data_loaded e)) events = true ->
  selection_listed (run events st).
Proof.
  unfold run. revert st.
  induction events as [|e events IH]; intros st Inv Hev; [exact Inv|].
  simpl in Hev. apply andb_prop in Hev. destruct Hev as [He Hev].
  simpl. apply IH; [|exact Hev].
  apply SessionFacts.step_selection_listed; [exact Inv|].
  intros Hl. rewrite Hl in He. discriminate.
Qed.

Lemma selection_stays_listed_witness :
  selection_listed
    (run [EFileChosen (Some "a.txt");
          EFileRead [] 1 "2024-01-01" "a.txt" "Ants dig. Bees fly." true;
          ETyped "what is an ant"; ESubmit; EDelete 0 true; ETimeout]
         (initial_state None)).
Proof.
  apply (selection_stays_listed
           [EFileChosen (Some "a.txt");
            EFileRead [] 1 "2024-01-01" "a.txt" "Ants dig. Bees fly." true;
            ETyped "what is an ant"; ESubmit; EDelete 0 true; ETimeout]
           (initial_state None)).
  - intros d H. discriminate H.
  - reflexivity.
Defined.

Module DeleteFacts.

Lemma deleteDocument_documents (ok : bool) (docId : Z) (st : AppState) :
  st_documents (deleteDocument ok docId st)
  = filter (fun d => negb (Z.eqb (doc_id d) docId)) (st_documents st).
Proof.
  unfold deleteDocument, saveDocuments.
  destruct (st_selectedDoc st) as [sel|];
    [destruct (Z.eqb (doc_id sel) docId)|]; destruct ok; reflexivity.
Qed.

Lemma deleteDocument_In (ok : bool) (docId : Z) (st : AppState)
  (d : Document) :
  In d (st_documents (deleteDocument ok docId st))
  <-> In d (st_documents st) /\ doc_id d <> docId.
Proof.
  rewrite deleteDocument_documents, filter_In, negb_true_iff, Z.eqb_neq.
  tauto.
Qed.

Lemma deleteDocument_selected (ok : bool) (docId : Z) (st : AppState)
  (sel : Document) :
  st_selectedDoc st = Some sel -> doc_id sel = docId ->
  st_selectedDoc (deleteDocument ok docId st) = None
  /\ st_chatHistory (deleteDocument ok docId st) = [].
Proof.
  intros Hsel Hid. unfold deleteDocument, saveDocuments.
  rewrite Hsel. apply Z.eqb_eq in Hid. rewrite Hid.
  destruct ok; split; reflexivity.
Qed.

Lemma deleteDocument_other (ok : bool) (docId : Z) (st : AppState) :
  (forall sel, st_selectedDoc st = Some sel -> doc_id sel <> docId) ->
  st_selectedDoc (deleteDocument ok docId st) = st_selectedDoc st
  /\ st_chatHistory (deleteDocument ok docId st) = st_chatHistory st.
Proof.
  intros Hother. unfold deleteDocument, saveDocuments.
  destruct (st_selectedDoc st) as [sel|] eqn:Hsel.
  - specialize (Hother sel eq_refl). apply Z.eqb_neq in Hother.
    rewrite Hother. destruct ok; cbn; now rewrite ?Hsel.
  - destruct ok; cbn; now rewrite ?Hsel.
Qed.

End DeleteFacts.

(** X11.  Deleting by identifier removes exactly the documents with that
    identifier and keeps the others in their order; the selection and the
    chat are cleared when the selected document has the identifier, and
    left as they are otherwise. *)
Theorem deleteDocument_effect (ok : bool) (docId : Z) (st : AppState) :
  let st' := deleteDocument ok docId st in
  st_documents st'
  = filter (fun d => negb (Z.eqb (doc_id d) docId)) (st_documents st)
  /\ (forall d, In d (st_documents st') <->
                In d (st_documents st) /\ doc_id d <> docId)
  /\ (forall sel, st_selectedDoc st = Some sel -> doc_id sel = docId ->
                  st_selectedDoc st' = None /\ st_chatHistory st' = [])
  /\ ((forall sel, st_selectedDoc st = Some sel -> doc_id sel <> docId) ->
      st_selectedDoc st' = st_selectedDoc st
      /\ st_chatHistory st' = st_chatHistory st).
Proof.
  intros st'. subst st'. split; [|split; [|split]].
  - apply DeleteFacts.deleteDocument_documents.
  - intros d. apply DeleteFacts.deleteDocument_In.
  - intros sel. apply DeleteFacts.deleteDocument_selected.
  - apply DeleteFacts.deleteDocument_other.
Qed.

(** X12.  [handleQuery] does nothing when the query is empty or all
    whitespace, and nothing when no document is selected: no turn is added
    and no answer is scheduled. *)
Theorem handleQuery_ignores_blank (st : AppState) :
  all_chars is_space (st_query st) = true \/ st_selectedDoc st = None ->
  handleQuery st = st.
Proof.
  unfold handleQuery. intros [H|H].
  - destruct (st_selectedDoc st); [|reflexivity].
    now rewrite (SessionFacts.trim_all_space _ H).
  - now rewrite H.
Qed.

Lemma handleQuery_ignores_blank_witness :
  handleQuery
    (setQuery "   "
       (step (initial_state None)
             (EFileRead [] 1 "2024-01-01" "a.txt" "Ants dig." true)))
  = setQuery "   "
      (step (initial_state None)
            (EFileRead [] 1 "2024-01-01" "a.txt" "Ants dig." true)).
Proof.
  apply (handleQuery_ignores_blank
           (setQuery "   "
              (step (initial_state None)
                    (EFileRead [] 1 "2024-01-01" "a.txt" "Ants dig." true)))).
  left. reflexivity.
Defined.

(** X13.  A question and its answer: with a document selected, a query
    that is not blank and no answer pending, submitting and then letting
    the timer run adds two turns to the chat, the question as typed and the
    answer of [generateAnswer] on the context retrieved from the selected
    document, with an excerpt of the context of at most 200 characters
    followed by "..."; the input is cleared, the processing flag is off, and
    the library and the selection are as before. *)
Theorem question_then_answer (st : AppState) (doc : Document) :
  st_selectedDoc st = Some doc ->
  all_chars is_space (st_query st) = false ->
  st_timers st = [] ->
  let st' := run [ESubmit; ETimeout] st in
  let asked := st_query st in
  let context := extractRelevantContext (doc_content doc) asked in
  st_chatHistory st'
  = (st_chatHistory st
     ++ [mkChatTurn RoleUser asked None;
         mkChatTurn RoleAi (generateAnswer context asked)
                    (Some (context_excerpt context))])%list
  /\ String.length (context_excerpt context)
     = min 200 (String.length context) + 3
  /\ st_query st' = EmptyString
  /\ st_isProcessing st' = false
  /\ st_timers st' = []
  /\ st_documents st' = st_documents st
  /\ st_selectedDoc st' = st_selectedDoc st.
Proof.
  intros Hsel Hq Ht. cbn [run fold_left step].
  unfold handleQuery. rewrite Hsel, (SessionFacts.trim_not_all_space _ Hq).
  unfold handleQuery_timeout. cbn. rewrite Ht. cbn.
  rewrite <- app_assoc. repeat split; trivial.
  unfold context_excerpt.
  now rewrite StringFacts.length_append, SessionFacts.length_substring_0.
Qed.

Lemma question_then_answer_witness :
  let st :=
    run [EFileRead [] 1 "2024-01-01" "a.txt" "Ants dig. Bees fly." true;
         ETyped "what is an ant"]
        (initial_state None) in
  st_chatHistory (run [ESubmit; ETimeout] st)
  = (st_chatHistory st
     ++ [mkChatTurn RoleUser "what is an ant" None;
         mkChatTurn RoleAi "Ants dig." (Some "Ants dig...")])%list.
Proof.
  intros st.
  refine (proj1 (question_then_answer st
                   (handleFileUpload 1 "2024-01-01" "a.txt"
                                     "Ants dig. Bees fly.") _ _ _));
    reflexivity.
Defined.

(** X14.  An answer is computed from the document that was selected when
    the question was submitted and is added to whatever chat is shown when
    the timer runs: after a switch to another document of the library in
    between, the chat holds the greeting for the new document followed by
    the answer about the old one. *)
Theorem late_answer_joins_new_chat (st : AppState) (old other : Document)
  (i : nat) :
  st_selectedDoc st = Some old ->
  all_chars is_space (st_query st) = false ->
  st_timers st = [] ->
  nth_error (st_documents st) i = Some other ->
  let st' := run [ESubmit; EChatWith i; ETimeout] st in
  st_selectedDoc st' = Some other
  /\ st_chatHistory st'
     = [mkChatTurn RoleSystem (chatting_message (doc_name other)) None;
        answer_turn old (st_query st)].
Proof.
  intros Hsel Hq Ht Hi. cbn [run fold_left step].
  unfold handleQuery. rewrite Hsel, (SessionFacts.trim_not_all_space _ Hq).
  cbn. rewrite Hi. unfold handleQuery_timeout. cbn. rewrite Ht. cbn.
  split; reflexivity.
Qed.

Lemma late_answer_joins_new_chat_witness :
  let a := handleFileUpload 1 "2024-01-01" "a.txt" "Ants dig." in
  let b := handleFileUpload 2 "2024-01-02" "b.txt" "Bees fly." in
  let st :=
    run [EFileRead [] 1 "2024-01-01" "a.txt" "Ants dig." true;
         EFileRead [a] 2 "2024-01-02" "b.txt" "Bees fly." true;
         ETyped "what is a bee"]
        (initial_state None) in
  st_selectedDoc (run [ESubmit; EChatWith 0; ETimeout] st) = Some a
  /\ st_chatHistory (run [ESubmit; EChatWith 0; ETimeout] st)
     = [mkChatTurn RoleSystem (chatting_message "a.txt") None;
        answer_turn b "what is a bee"].
Proof.
  intros a b st.
  apply (late_answer_joins_new_chat st b a 0); reflexivity.
Defined.

(** X16.  Uploading a file and then deleting the new document gives the
    library back as it was, with no document selected and an empty chat,
    provided no document of the library already has the identifier that the
    upload took from the clock. *)
Theorem upload_then_delete (st : AppState) (now : Z)
  (isoDate fileName text : string) (ok ok' : bool) :
  Forall (fun d => doc_id d <> now) (st_documents st) ->
  let st' :=
    deleteDocument ok' now
      (handleFileUpload_onload (st_documents st) now isoDate fileName text
                               ok st) in
  st_documents st' = st_documents st
  /\ st_selectedDoc st' = None
  /\ st_chatHistory st' = [].
Proof.
  intros Hfresh st'.
  pose proof (DeleteFacts.deleteDocument_documents ok' now
                (handleFileUpload_onload (st_documents st) now isoDate
                   fileName text ok st)) as Hdocs.
  pose proof (DeleteFacts.deleteDocument_selected ok' now
                (handleFileUpload_onload (st_documents st) now isoDate
                   fileName text ok st)) as Hsel.
  fold st' in Hdocs, Hsel.
  assert (Hup : st_documents
                  (handleFileUpload_onload (st_documents st) now isoDate
                     fileName text ok st)
                = (st_documents st
                   ++ [handleFileUpload now isoDate fileName text])%list).
  { unfold handleFileUpload_onload, saveDocuments. now destruct ok. }
  split.
  - rewrite Hdocs, Hup, filter_app, SessionFacts.filter_other_ids by trivial.
    cbn. rewrite Z.eqb_refl. cbn. apply app_nil_r.
  - apply (Hsel (handleFileUpload now isoDate fileName text)).
    + unfold handleFileUpload_onload, saveDocuments. now destruct ok.
    + reflexivity.
Qed.

Lemma upload_then_delete_witness :
  let st :=
    step (initial_state None)
         (EFileRead [] 1 "2024-01-01" "a.txt" "Ants dig." true) in
  let st' :=
    deleteDocument true 2
      (handleFileUpload_onload (st_documents st) 2 "2024-01-02" "b.txt"
                               "Bees fly." true st) in
  st_documents st' = st_documents st
  /\ st_selectedDoc st' = None
  /\ st_chatHistory st' = [].
Proof.
  intros st.
  apply (upload_then_delete st 2 "2024-01-02" "b.txt" "Bees fly." true true).
  repeat constructor. discriminate.
Defined.

(** X17.  A file read that was started before a deletion brings the
    deleted document back: [reader.onload] appends the new document to the
    list its closure captured when the file was chosen, not to the list the
    deletion left. *)
Theorem pending_upload_restores_deleted (st : AppState) (i : nat)
  (d : Document) (now : Z) (isoDate fileName text : string)
  (ok ok' : bool) :
  nth_error (st_documents st) i = Some d ->
  let deleted := run [EFileChosen (Some fileName); EDelete i ok] st in
  let st' :=
    step deleted
         (EFileRead (st_documents st) now isoDate fileName text ok') in
  ~ In d (st_documents deleted)
  /\ In d (st_documents st')
  /\ st_documents st'
     = (st_documents st
        ++ [handleFileUpload now isoDate fileName text])%list.
Proof.
  intros Hi deleted st'.
  assert (Hup : st_documents st'
                = (st_documents st
                   ++ [handleFileUpload now isoDate fileName text])%list).
  { subst st'. cbn [step]. unfold handleFileUpload_onload, saveDocuments.
    now destruct ok'. }
  repeat split.
  - subst deleted. cbn [run fold_left step handleFileUpload_begin].
    cbn [setIsProcessing st_documents]. rewrite Hi.
    intros H. apply DeleteFacts.deleteDocument_In in H. now destruct H.
  - rewrite Hup. apply in_or_app. left. now apply nth_error_In in Hi.
  - exact Hup.
Qed.

Lemma pending_upload_restores_deleted_witness :
  let st :=
    step (initial_state None)
         (EFileRead [] 1 "2024-01-01" "a.txt" "Ants dig." true) in
  let d := handleFileUpload 1 "2024-01-01" "a.txt" "Ants dig." in
  let deleted := run [EFileChosen (Some "b.txt"); EDelete 0 true] st in
  let st' :=
    step deleted
         (EFileRead (st_documents st) 2 "2024-01-02" "b.txt" "Bees fly."
                    true) in
  ~ In d (st_documents deleted)
  /\ In d (st_documents st')
  /\ st_documents st'
     = (st_documents st
        ++ [handleFileUpload 2 "2024-01-02" "b.txt" "Bees fly."])%list.
Proof.
  intros st d.
  apply (pending_upload_restores_deleted st 0 d 2 "2024-01-02" "b.txt"
           "Bees fly." true true).
  reflexivity.
Defined.

(* ================================================================= *)
(** ** From the retrieved context to the answer *)

Module PipelineFacts.

Lemma all_chars_impl (p q : ascii -> bool) (s : string) :
  (forall c, p c = true -> q c = true) ->
  all_chars p s = true -> all_chars q s = true.
Proof.
  intros Hpq. induction s as [|c s IH]; simpl; [reflexivity|].
  intros H. apply andb_prop in H. destruct H as [Hc Hs].
  now rewrite (Hpq c Hc), IH.
Qed.

(** A string without separators is its own single fragment. *)
Lemma split_class_plain (d : ascii -> bool) (b : bool) (r : string) :
  all_chars (fun c => negb (d c)) r = true -> split_class d b r = [r].
Proof.
  revert b. induction r as [|c r IH]; intros b H; simpl in *;
    [reflexivity|].
  apply andb_prop in H. destruct H as [Hc Hr].
  apply negb_true_iff in Hc. now rewrite Hc, IH.
Qed.

(** A string without separators, followed by a separator, is the first
    fragment. *)
Lemma split_class_app (d : ascii -> bool) (r : string) (sep : ascii)
  (t : string) :
  all_chars (fun c => negb (d c)) r = true -> d sep = true ->
  split_class d false (r ++ String sep t) = r :: split_class d true t.
Proof.
  intros Hr Hsep. induction r as [|c r IH]; simpl in *.
  - now rewrite Hsep.
  - apply andb_prop in Hr. destruct Hr as [Hc Hr].
    apply negb_true_iff in Hc. now rewrite Hc, IH.
Qed.

Lemma split_char_plain (sep : ascii) (r : string) :
  all_chars (fun c => negb (Ascii.eqb c sep)) r = true ->
  split_char sep r = [r].
Proof.
  induction r as [|c r IH]; intros H; simpl in *; [reflexivity|].
  apply andb_prop in H. destruct H as [Hc Hr].
  apply negb_true_iff in Hc. now rewrite Hc, IH.
Qed.

Lemma split_char_app (sep : ascii) (r t : string) :
  all_chars (fun c => negb (Ascii.eqb c sep)) r = true ->
  split_char sep (r ++ String sep t) = r :: split_char sep t.
Proof.
  intros Hr. induction r as [|c r IH]; simpl in *.
  - now rewrite Ascii.eqb_refl.
  - apply andb_prop in Hr. destruct Hr as [Hc Hr].
    apply negb_true_iff in Hc. now rewrite Hc, IH.
Qed.

Lemma join_cons (sep r r2 : string) (rest : list string) :
  JSArray.join sep (r :: r2 :: rest)
  = r ++ sep ++ JSArray.join sep (r2 :: rest).
Proof. reflexivity. Qed.

(** Splitting what [join('. ')] made of sentences without '.', '!' and
    '?' gives the sentences back, each but the first behind the space of
    the separator. *)
Lemma resplit_joined (r : string) (rest : list string) :
  Forall (fun s => all_chars (fun c => negb (is_terminator c)) s = true)
         (r :: rest) ->
  split_class is_terminator false (JSArray.join ". " (r :: rest))
  = r :: map (String " ") rest.
Proof.
  revert r. induction rest as [|r2 rest IH]; intros r H.
  - inversion H; subst. now apply split_class_plain.
  - inversion H as [|? ? Hr Hrest]; subst.
    rewrite join_cons. change (". " ++ ?x) with (String "." (String " " x)).
    rewrite split_class_app by trivial.
    change (split_class is_terminator true
              (String " " (JSArray.join ". " (r2 :: rest))))
      with (cons_head " " (split_class is_terminator false
                             (JSArray.join ". " (r2 :: rest)))).
    now rewrite IH.
Qed.

Lemma trimEnd_fixed (s : string) :
  ends_with is_space s = false -> trimEnd s = s.
Proof.
  induction s as [|c s IH]; [reflexivity|].
  destruct s as [|c' s].
  - simpl. now intros ->.
  - intros H. change (ends_with is_space (String c' s) = false) in H.
    change (trimEnd (String c (String c' s)))
      with (match trimEnd (String c' s) with
            | EmptyString =>
                if is_space c then EmptyString else String c EmptyString
            | r => String c r
            end).
    now rewrite (IH H).
Qed.

Lemma trim_fixed (s : string) :
  starts_with is_space s = false -> ends_with is_space s = false ->
  trim s = s.
Proof.
  intros Hs He. unfold trim.
  assert (E : trimStart s = s).
  { destruct s as [|c s]; [reflexivity|]. simpl in *. now rewrite Hs. }
  rewrite E. now apply trimEnd_fixed.
Qed.

(** The context retrieved when some sentence matches, split into
    sentences again. *)
Lemma resplit_context (content query r : string) (rest : list string) :
  relevantSentences content query = r :: rest ->
  extractRelevantContext content query = JSArray.join ". " (r :: rest)
  /\ split_sentences (extractRelevantContext content query)
     = r :: map (String " ") rest.
Proof.
  intros H.
  assert (E : extractRelevantContext content query
              = JSArray.join ". " (r :: rest)).
  { unfold extractRelevantContext. now rewrite H. }
  split; [exact E|]. rewrite E. unfold split_sentences.
  assert (Hshape : forall s, In s (r :: rest) ->
            non_empty s = true
            /\ starts_with is_space s = false
            /\ ends_with is_space s = false
            /\ all_chars (fun c => negb (is_terminator c)) s = true).
  { intros s Hs. rewrite <- H in Hs.
    now apply ShapeFacts.relevant_sentence_shape in Hs. }
  rewrite resplit_joined
    by (apply Forall_forall; intros s Hs; now apply Hshape).
  apply forallb_filter_id, forallb_forall. intros s [<-|Hs].
  - destruct (Hshape r (or_introl eq_refl)) as (Hne & Hs & He & _).
    now rewrite trim_fixed.
  - apply in_map_iff in Hs. destruct Hs as (s2 & <- & Hs2).
    destruct (Hshape s2 (or_intror Hs2)) as (Hne & Hst & He & _).
    destruct (non_empty (trim (String " " s2))) eqn:B; [reflexivity|].
    apply SplitFacts.trim_blank in B. simpl in B.
    assert (B2 : non_empty (trim s2) = false)
      by now apply SplitFacts.trim_blank.
    rewrite trim_fixed in B2 by trivial. congruence.
Qed.

End PipelineFacts.

(** X18.  Splitting the retrieved context into sentences again gives the
    selected sentences back, the first as it is and each later one behind
    the space of the ". " that joined them; so the default reply for such a
    context repeats up to three of them with two spaces after each full
    stop inside. *)
Theorem context_resplits_into_selection (content query r : string)
  (rest : list string) :
  relevantSentences content query = r :: rest ->
  let context := extractRelevantContext content query in
  split_sentences context = r :: map (String " ") rest
  /\ default_reply context
     = "Based on the document: "
       ++ JSArray.join ". " (firstn 3 (r :: map (String " ") rest)) ++ ".".
Proof.
  intros H. destruct (PipelineFacts.resplit_context _ _ _ _ H) as [_ E].
  cbn zeta. split; [exact E|].
  unfold default_reply, JSArray.slice0. now rewrite E.
Qed.

Lemma context_resplits_into_selection_witness :
  let context := extractRelevantContext "Ants dig. Bees fly. Ants bite"
                                        "ants" in
  split_sentences context = "Ants dig" :: map (String " ") ["Ants bite"]
  /\ default_reply context
     = "Based on the document: "
       ++ JSArray.join ". "
            (firstn 3 ("Ants dig" :: map (String " ") ["Ants bite"]))
       ++ ".".
Proof.
  apply (context_resplits_into_selection
           "Ants dig. Bees fly. Ants bite" "ants" "Ants dig" ["Ants bite"]).
  reflexivity.
Defined.

(** X19.  A definition question is answered with the best sentence: when
    some sentence matches, the query contains "what is" or "define" and
    not "summar", and the counting branch does not return (no "how many" or
    "count" in the query, or no digit in the context), the answer is the
    first selected sentence followed by a full stop. *)
Theorem definition_answer_is_best_sentence (content query r : string)
  (rest : list string) :
  relevantSentences content query = r :: rest ->
  includes (toLowerCase query) "summar" = false ->
  includes (toLowerCase query) "what is"
  || includes (toLowerCase query) "define" = true ->
  includes (toLowerCase query) "how many"
  || includes (toLowerCase query) "count" = false
  \/ all_chars (fun c => negb (is_digit c))
               (extractRelevantContext content query) = true ->
  generateAnswer (extractRelevantContext content query) query = r ++ ".".
Proof.
  intros H Hs Hd Hc.
  destruct (PipelineFacts.resplit_context _ _ _ _ H) as [_ E].
  assert (Hshape : starts_with is_space r = false
                   /\ ends_with is_space r = false).
  { assert (Hin : In r (relevantSentences content query))
      by (rewrite H; now left).
    apply ShapeFacts.relevant_sentence_shape in Hin. tauto. }
  unfold generateAnswer. rewrite Hs.
  assert (Hcb : counting_branch (extractRelevantContext content query)
                                (toLowerCase query) = None).
  { unfold counting_branch. destruct Hc as [Hc|Hc].
    - now rewrite Hc.
    - apply ReplyFacts.match_digits_nil in Hc. rewrite Hc.
      now destruct (includes (toLowerCase query) "how many"
                    || includes (toLowerCase query) "count"). }
  rewrite Hcb, Hd. unfold definition_reply. rewrite E.
  now rewrite PipelineFacts.trim_fixed.
Qed.

Lemma definition_answer_is_best_sentence_witness :
  generateAnswer
    (extractRelevantContext "Ants dig. Bees fly. Ants bite" "Define ants")
    "Define ants"
  = "Ants dig" ++ ".".
Proof.
  apply (definition_answer_is_best_sentence
           "Ants dig. Bees fly. Ants bite" "Define ants" "Ants dig"
           ["Ants bite"]);
    try reflexivity.
  left. reflexivity.
Defined.

(** X20.  A counting question quotes the best sentence: when some
    sentence matches, the query contains "how many" or "count" and not
    "summar", and the retrieved context has a digit, the answer lists the
    first five runs of digits of the context and ends with the first
    selected sentence and a full stop. *)
Theorem counting_answer_quotes_best_sentence (content query r : string)
  (rest : list string) :
  relevantSentences content query = r :: rest ->
  includes (toLowerCase query) "summar" = false ->
  includes (toLowerCase query) "how many"
  || includes (toLowerCase query) "count" = true ->
  all_chars (fun c => negb (is_digit c))
            (extractRelevantContext content query) = false ->
  generateAnswer (extractRelevantContext content query) query
  = "Based on the document, I found the following numbers: "
    ++ JSArray.join ", "
         (firstn 5 (match_class is_digit
                      (extractRelevantContext content query)))
    ++ ". " ++ r ++ ".".
Proof.
  intros H Hs Hc Hd.
  destruct (PipelineFacts.resplit_context _ _ _ _ H) as [E _].
  assert (Hr : all_chars (fun c => negb (Ascii.eqb c ".")) r = true).
  { assert (Hin : In r (relevantSentences content query))
      by (rewrite H; now left).
    apply ShapeFacts.relevant_sentence_shape in Hin.
    destruct Hin as (_ & _ & _ & _ & Hin).
    revert Hin. apply PipelineFacts.all_chars_impl. intros c Hc'.
    destruct (Ascii.eqb_spec c "."); [subst; discriminate|reflexivity]. }
  assert (Hhd : hd EmptyString
                   (split_char "." (extractRelevantContext content query))
                = r).
  { rewrite E. destruct rest as [|r2 rest].
    - cbn [JSArray.join String.concat].
      now rewrite PipelineFacts.split_char_plain.
    - rewrite PipelineFacts.join_cons.
      change (". " ++ ?x) with (String "." (String " " x)).
      now rewrite PipelineFacts.split_char_app. }
  unfold generateAnswer, counting_branch. rewrite Hs, Hc.
  destruct (match_class is_digit (extractRelevantContext content query))
    eqn:Em.
  - apply ReplyFacts.match_digits_nil in Em. congruence.
  - unfold numbers_reply, JSArray.slice0. now rewrite Hhd.
Qed.

Lemma counting_answer_quotes_best_sentence_witness :
  generateAnswer
    (extractRelevantContext "We have 12 ants. Bees fly" "count the ants")
    "count the ants"
  = "Based on the document, I found the following numbers: "
    ++ JSArray.join ", "
         (firstn 5 (match_class is_digit
                      (extractRelevantContext "We have 12 ants. Bees fly"
                                              "count the ants")))
    ++ ". " ++ "We have 12 ants" ++ ".".
Proof.
  apply (counting_answer_quotes_best_sentence
           "We have 12 ants. Bees fly" "count the ants" "We have 12 ants" []);
    reflexivity.
Defined.

(* ================================================================= *)
(** ** What [sort] is for a consistent comparator *)

Module SortSpec.

Section ByRank.
Context {A : Type}.
Variable rank : A -> Z.

Lemma rank_of_head (x : A) (l1 l2 : list A) :
  StronglySorted (rank_le rank) (x :: l1) ->
  (forall r, filter (fun a => (rank a =? r)%Z) (x :: l1)
             = filter (fun a => (rank a =? r)%Z) l2) ->
  forall y, In y l2 -> (rank x <= rank y)%Z.
Proof.
  intros Hs Hf y Hy.
  assert (Hin : In y (x :: l1)).
  { apply (proj1 (filter_In (fun a => (rank a =? rank y)%Z) y (x :: l1))).
    rewrite Hf. apply filter_In. split; [exact Hy|apply Z.eqb_refl]. }
  inversion Hs as [|? ? _ Hx]; subst. destruct Hin as [<-|Hin]; [lia|].
  rewrite Forall_forall in Hx. now apply Hx.
Qed.

(** Two lists sorted by rank whose elements of each rank are the same,
    in the same order, are equal. *)
Lemma sorted_stable_unique (l1 l2 : list A) :
  StronglySorted (rank_le rank) l1 ->
  StronglySorted (rank_le rank) l2 ->
  (forall r, filter (fun a => (rank a =? r)%Z) l1
             = filter (fun a => (rank a =? r)%Z) l2) ->
  l1 = l2.
Proof.
  revert l2. induction l1 as [|x l1 IH]; intros l2 H1 H2 Hf.
  - destruct l2 as [|y l2]; [reflexivity|].
    specialize (Hf (rank y)). simpl in Hf. rewrite Z.eqb_refl in Hf.
    discriminate.
  - destruct l2 as [|y l2].
    + specialize (Hf (rank x)). simpl in Hf. rewrite Z.eqb_refl in Hf.
      discriminate.
    + assert (Hxy : (rank x <= rank y)%Z).
      { apply (rank_of_head x l1 (y :: l2) H1 Hf). now left. }
      assert (Hyx : (rank y <= rank x)%Z).
      { apply (rank_of_head y l2 (x :: l1) H2).
        - intros r. symmetry. apply Hf.
        - now left. }
      assert (E : rank x = rank y) by lia.
      pose proof (Hf (rank x)) as Hfx. simpl in Hfx.
      rewrite <- E, Z.eqb_refl in Hfx. injection Hfx as <- Hfx.
      f_equal. inversion H1; inversion H2; subst. apply IH; trivial.
      intros r. specialize (Hf r). simpl in Hf.
      destruct (rank x =? r)%Z; [now injection Hf|exact Hf].
Qed.

(** [sort] by a rank returns the one list that is sorted by the rank and
    keeps the elements of each rank in the order they had: what any stable
    sort returns. *)
Lemma sort_unique (l l' : list A) :
  StronglySorted (rank_le rank) l' ->
  (forall r, filter (fun a => (rank a =? r)%Z) l'
             = filter (fun a => (rank a =? r)%Z) l) ->
  l' = JSArray.sort (by_rank rank) l.
Proof.
  intros Hs Hf. apply sorted_stable_unique; trivial.
  - apply ArrayFacts.sort_sorted.
  - intros r. now rewrite ArrayFacts.sort_stable.
Qed.
End ByRank.

End SortSpec.

(** Where the comparator is not consistent: the count of "constructor" is
    a string, which compares as NaN with every number, between counts that
    differ.  The list below is what the insertion order of [sort] makes of
    it; an engine may arrange the same four entries otherwise. *)
Lemma inconsistent_comparator_example :
  map word
      (topWords
         (performDocumentAnalysis "atom full constructor each each full"))
  = ["full"; "atom"; "constructor"; "each"].
Proof. reflexivity. Qed.

(* ================================================================= *)
(** ** The fallback of the retriever *)

Module FallbackFacts.

Lemma all_chars_app (p : ascii -> bool) (s t : string) :
  all_chars p (s ++ t) = all_chars p s && all_chars p t.
Proof.
  induction s as [|c s IH]; simpl; [reflexivity|].
  now rewrite IH, andb_assoc.
Qed.

(** The sentences of a text written as sentences joined by ". ": the
    first as it is, each later one with the space of the separator in
    front. *)
Lemma split_sentences_joined (r : string) (rest : list string) :
  Forall (fun s => all_chars (fun c => negb (is_terminator c)) s = true
                   /\ all_chars is_space s = false) (r :: rest) ->
  split_sentences (JSArray.join ". " (r :: rest))
  = r :: map (String " ") rest.
Proof.
  intros H. unfold split_sentences.
  rewrite PipelineFacts.resplit_joined
    by (revert H; apply Forall_impl; tauto).
  apply forallb_filter_id, forallb_forall.
  rewrite Forall_forall in H. intros s [<-|Hs].
  - destruct (non_empty (trim r)) eqn:B; [reflexivity|].
    apply SplitFacts.trim_blank in B.
    destruct (H r (or_introl eq_refl)). congruence.
  - apply in_map_iff in Hs. destruct Hs as (s2 & <- & Hs2).
    destruct (non_empty (trim (String " " s2))) eqn:B; [reflexivity|].
    apply SplitFacts.trim_blank in B. simpl in B.
    destruct (H s2 (or_intror Hs2)). congruence.
Qed.

End FallbackFacts.

(** What the fallback returns for a text written as sentences joined by
    ". ", when no sentence matches the query: the first five of them
    joined by ". " again, but each after the first with a second space in
    front, since the fragments are not trimmed. *)
Lemma fallback_on_joined_sentences (r query : string) (rest : list string) :
  Forall (fun s => all_chars (fun c => negb (is_terminator c)) s = true
                   /\ all_chars is_space s = false) (r :: rest) ->
  no_sentence_matches (JSArray.join ". " (r :: rest)) query = true ->
  extractRelevantContext (JSArray.join ". " (r :: rest)) query
  = JSArray.join ". " (firstn 5 (r :: map (String " ") rest)).
Proof.
  intros Hshape Hno.
  destruct (fallback_returns_first_five_sentences _ _ Hno) as [E _].
  now rewrite E, FallbackFacts.split_sentences_joined.
Qed.

(** C5.  The fallback does not return the sentences of the document as
    the matching path does.  For the document "One. Two" no sentence
    contains the query token "zebra", and the result is "One.  Two", with
    the space that followed the full stop kept in front of the second
    sentence, not "One. Two"; the query "two" selects the second sentence,
    which comes back trimmed, "Two".  A document that begins with a space
    comes back with it. *)
Theorem fallback_keeps_untrimmed_fragments :
  no_sentence_matches "One. Two" "zebra" = true
  /\ extractRelevantContext "One. Two" "zebra" = "One.  Two"
  /\ extractRelevantContext "One. Two" "zebra" <> "One. Two"
  /\ extractRelevantContext "One. Two" "two" = "Two"
  /\ extractRelevantContext " Hello" "zebra" = " Hello".
Proof.
  repeat split; try reflexivity.
  vm_compute. discriminate.
Qed.

(* ================================================================= *)
(** ** Runs of digits, from the document to the answer *)

Module NumberFacts.

Lemma cons_head_app (c : ascii) (l1 l2 : list string) :
  l1 <> [] -> (cons_head c (l1 ++ l2) = cons_head c l1 ++ l2)%list.
Proof. destruct l1; [contradiction|reflexivity]. Qed.

Lemma cons_head_not_nil (c : ascii) (l : list string) : cons_head c l <> [].
Proof. destruct l; discriminate. Qed.

Lemma match_class_not_nil (d : ascii -> bool) (s : string) :
  starts_with d s = true -> match_class d s <> [].
Proof.
  destruct s as [|c s]; simpl; [discriminate|]. intros ->.
  destruct (starts_with d s); [apply cons_head_not_nil|discriminate].
Qed.

Lemma starts_with_app (d : ascii -> bool) (x y : string) :
  starts_with d y = false ->
  starts_with d (x ++ y) = starts_with d x.
Proof. destruct x; simpl; [now intros ->|reflexivity]. Qed.

(** The runs of a concatenation whose second part does not begin inside
    a run. *)
Lemma match_class_app (d : ascii -> bool) (x y : string) :
  starts_with d y = false ->
  (match_class d (x ++ y) = match_class d x ++ match_class d y)%list.
Proof.
  intros Hy. induction x as [|c x IH]; [reflexivity|].
  simpl. rewrite (starts_with_app d x y Hy), IH.
  destruct (d c); [|reflexivity].
  destruct (starts_with d x) eqn:E; [|reflexivity].
  apply cons_head_app. now apply match_class_not_nil.
Qed.

Lemma is_space_not_digit (c : ascii) :
  is_space c = true -> is_digit c = false.
Proof.
  destruct c as [[] [] [] [] [] [] [] []]; vm_compute; congruence.
Qed.

Lemma is_terminator_not_digit (c : ascii) :
  is_terminator c = true -> is_digit c = false.
Proof.
  destruct c as [[] [] [] [] [] [] [] []]; vm_compute; congruence.
Qed.

(** The runs of digits of sentences joined by ". " are the runs of the
    sentences. *)
Lemma numbers_join (l : list string) :
  match_class is_digit (JSArray.join ". " l)
  = flat_map (match_class is_digit) l.
Proof.
  induction l as [|a l IH]; [reflexivity|].
  destruct l as [|b l].
  - simpl. now rewrite app_nil_r.
  - rewrite PipelineFacts.join_cons.
    rewrite match_class_app by reflexivity.
    change (flat_map (match_class is_digit) (a :: b :: l))
      with (match_class is_digit a
            ++ flat_map (match_class is_digit) (b :: l))%list.
    now rewrite <- IH.
Qed.

Lemma numbers_trimStart (s : string) :
  match_class is_digit (trimStart s) = match_class is_digit s.
Proof.
  induction s as [|c s IH]; [reflexivity|]. simpl.
  destruct (is_space c) eqn:E; [|reflexivity].
  now rewrite (is_space_not_digit c E).
Qed.

Lemma trimEnd_suffix (s : string) :
  exists w, s = trimEnd s ++ w /\ all_chars is_space w = true.
Proof.
  induction s as [|c s (w & Hs & Hw)]; [now exists EmptyString|].
  simpl. destruct (trimEnd s) as [|c' r] eqn:E.
  - simpl in Hs. destruct (is_space c) eqn:Sc.
    + exists (String c s). split; [reflexivity|].
      simpl. now rewrite Sc, Hs.
    + exists s. split; [reflexivity|now rewrite Hs].
  - exists w. split; [|exact Hw]. simpl. now rewrite Hs at 1.
Qed.

Lemma numbers_of_spaces (w : string) :
  all_chars is_space w = true ->
  starts_with is_digit w = false /\ match_class is_digit w = [].
Proof.
  intros H. split.
  - destruct w as [|c w]; [reflexivity|]. simpl in *.
    apply andb_prop in H. now apply is_space_not_digit.
  - apply ReplyFacts.match_digits_nil.
    revert H. apply PipelineFacts.all_chars_impl.
    intros c Hc. now rewrite (is_space_not_digit c Hc).
Qed.

Lemma numbers_trimEnd (s : string) :
  match_class is_digit (trimEnd s) = match_class is_digit s.
Proof.
  destruct (trimEnd_suffix s) as (w & Hs & Hw).
  destruct (numbers_of_spaces w Hw) as [H1 H2].
  rewrite Hs at 2. rewrite match_class_app by exact H1.
  now rewrite H2, app_nil_r.
Qed.

(** Trimming removes no digit. *)
Lemma numbers_trim (s : string) :
  match_class is_digit (trim s) = match_class is_digit s.
Proof. unfold trim. now rewrite numbers_trimEnd, numbers_trimStart. Qed.

Lemma starts_with_head_fragment (d : ascii -> bool) (x : string) :
  (forall c, d c = true -> is_digit c = false) ->
  starts_with is_digit (hd EmptyString (split_class d false x))
  = starts_with is_digit x.
Proof.
  intros Hd. destruct x as [|c x]; [reflexivity|]. simpl.
  destruct (d c) eqn:E; simpl; [now rewrite (Hd c E)|].
  now destruct (split_class d false x).
Qed.

(** Splitting at characters that are not digits cuts no run of digits:
    the runs of the fragments, in order, are the runs of the text. *)
Lemma numbers_fragments (d : ascii -> bool) (b : bool) (x : string) :
  (forall c, d c = true -> is_digit c = false) ->
  flat_map (match_class is_digit) (split_class d b x)
  = match_class is_digit x.
Proof.
  intros Hd. revert b. induction x as [|c x IH]; intros b; [reflexivity|].
  simpl split_class. destruct (d c) eqn:E.
  - simpl match_class. rewrite (Hd c E).
    destruct b; [apply IH|]. simpl. apply IH.
  - pose proof (IH false) as IHf.
    pose proof (starts_with_head_fragment d x Hd) as Hh.
    destruct (split_class d false x) as [|f rest].
    + simpl in *. rewrite <- IHf.
      destruct (is_digit c); [|reflexivity].
      now destruct (starts_with is_digit x).
    + simpl in Hh. cbn [cons_head flat_map]. simpl match_class.
      cbn [flat_map] in IHf. rewrite Hh, <- IHf.
      destruct (is_digit c); [|reflexivity].
      destruct (starts_with is_digit x) eqn:Sx; [|reflexivity].
      symmetry. apply cons_head_app.
      apply match_class_not_nil. now rewrite Hh.
Qed.

Lemma length_flat_map_filter {A B : Type} (g : A -> list B)
  (p : A -> bool) (l : list A) :
  List.length (flat_map g (filter p l)) <= List.length (flat_map g l).
Proof.
  induction l as [|x l IH]; simpl; [lia|].
  destruct (p x); simpl; rewrite !length_app; lia.
Qed.

Lemma length_flat_map_firstn {A B : Type} (g : A -> list B) (n : nat)
  (l : list A) :
  List.length (flat_map g (firstn n l)) <= List.length (flat_map g l).
Proof.
  revert n. induction l as [|x l IH]; intros [|n]; simpl; try lia.
  rewrite !length_app. specialize (IH n). lia.
Qed.

Lemma length_flat_map_sort {A B : Type} (g : A -> list B)
  (c : A -> A -> option Z) (l : list A) :
  List.length (flat_map g (JSArray.sort c l)) = List.length (flat_map g l).
Proof.
  apply Permutation_length, Permutation_flat_map,
    PermFacts.Permutation_sort.
Qed.

(** The context holds no more runs of digits than the document. *)
Lemma numbers_of_context (content query : string) :
  List.length (flat_map (match_class is_digit)
                        (relevantSentences content query))
  <= List.length (match_class is_digit content).
Proof.
  unfold relevantSentences, selected_sentences, JSArray.slice0.
  rewrite flat_map_concat_map, map_map, <- flat_map_concat_map.
  etransitivity; [apply length_flat_map_firstn|].
  rewrite length_flat_map_sort.
  etransitivity; [apply length_flat_map_filter|].
  unfold scoredSentences.
  rewrite flat_map_concat_map, map_map, <- flat_map_concat_map.
  cbn [sentence].
  rewrite (flat_map_ext _ (match_class is_digit))
    by (intros s; apply numbers_trim).
  unfold split_sentences.
  etransitivity; [apply length_flat_map_filter|].
  now rewrite (numbers_fragments is_terminator false content
                 is_terminator_not_digit).
Qed.

(** A stretch of text without '.', '!' and '?', followed by one of them,
    lies in one fragment, behind whatever the fragment already holds. *)
Lemma fragment_of (d : ascii -> bool) (b : bool) (pre core : string)
  (sep : ascii) (post : string) :
  core <> EmptyString ->
  all_chars (fun c => negb (d c)) core = true -> d sep = true ->
  exists front lst back,
    split_class d b (pre ++ core ++ String sep post)
    = (front ++ (lst ++ core)%string :: back)%list.
Proof.
  intros Hne Hcore Hsep. revert b.
  induction pre as [|c pre IH]; intros b.
  - exists [], EmptyString, (split_class d true post).
    destruct core as [|c0 core]; [contradiction|].
    simpl in Hcore. apply andb_prop in Hcore. destruct Hcore as [H0 Hc].
    apply negb_true_iff in H0. simpl. rewrite H0.
    now rewrite PipelineFacts.split_class_app.
  - simpl. destruct (d c).
    + destruct (IH true) as (front & lst & back & ->).
      destruct b.
      * now exists front, lst, back.
      * now exists (EmptyString :: front), lst, back.
    + destruct (IH false) as (front & lst & back & ->).
      destruct front as [|f front].
      * now exists [], (String c lst), back.
      * now exists (String c f :: front), lst, back.
Qed.

Lemma toLowerCase_app (s t : string) :
  toLowerCase (s ++ t) = toLowerCase s ++ toLowerCase t.
Proof.
  induction s as [|c s IH]; simpl; [reflexivity|now rewrite IH].
Qed.

Lemma includes_app_r (a b w : string) :
  includes b w = true -> includes (a ++ b) w = true.
Proof.
  intros H. induction a as [|c a IH]; [exact H|].
  simpl append. cbn [includes]. rewrite IH.
  now destruct (prefix w (String c (a ++ b))).
Qed.

End NumberFacts.

(** C9, as the code has it.  For the query "How many employees are there?
    Count them." and a document that contains the sentence "There are 42
    employees in 3 departments.", in which at most five sentences contain a
    token of the query and which has at most three runs of digits outside
    that sentence, the answer is the counting reply and lists both "42" and
    "3": it gives the first five runs of digits of the retrieved context,
    followed by the context up to its first full stop. *)
Theorem employees_numbers_are_listed (pre post : string) :
  let query := "How many employees are there? Count them." in
  let content := pre ++ "There are 42 employees in 3 departments." ++ post in
  List.length
    (filter (fun s => 0 <? score s) (scoredSentences content query)) <= 5 ->
  List.length (match_class is_digit pre)
  + List.length (match_class is_digit post) <= 3 ->
  let context := extractRelevantContext content query in
  let listed := firstn 5 (match_class is_digit context) in
  In "42" listed /\ In "3" listed
  /\ generateAnswer context query
     = "Based on the document, I found the following numbers: "
       ++ JSArray.join ", " listed ++ ". "
       ++ hd EmptyString (split_char "." context) ++ ".".
Proof.
  intros query content Hfive Hruns context listed.
  set (core := "There are 42 employees in 3 departments").
  assert (Econtent : content = pre ++ core ++ String "." post)
    by reflexivity.
  (* the fragment that holds the sentence *)
  destruct (NumberFacts.fragment_of is_terminator false pre core "." post)
    as (front & lst & back & Hfrags);
    [discriminate|reflexivity|reflexivity|].
  rewrite <- Econtent in Hfrags.
  set (F := lst ++ core) in *.
  assert (HF : In F (split_sentences content)).
  { unfold split_sentences. apply filter_In. rewrite Hfrags. split.
    - apply in_or_app. right. now left.
    - destruct (non_empty (trim F)) eqn:B; [reflexivity|].
      apply SplitFacts.trim_blank in B. unfold F in B.
      rewrite FallbackFacts.all_chars_app in B.
      apply andb_prop in B. destruct B as [_ B]. discriminate B. }
  assert (Hscore : 1 <= score_sentence (queryWords query) F).
  { apply RetrieverFacts.score_sentence_hit with (w := "employees").
    - vm_compute. tauto.
    - unfold F. rewrite NumberFacts.toLowerCase_app.
      now apply NumberFacts.includes_app_r. }
  (* it is among the selected sentences *)
  assert (Hsel : In (trim F) (relevantSentences content query)).
  { unfold relevantSentences, selected_sentences, JSArray.slice0.
    rewrite firstn_all2 by now rewrite ArrayFacts.length_sort.
    apply (in_map sentence _
             (mkScored (trim F) (score_sentence (queryWords query) F))).
    apply ArrayFacts.In_sort, filter_In. split.
    - unfold scoredSentences.
      now apply (in_map (fun s => mkScored (trim s)
                                    (score_sentence (queryWords query) s))).
    - now apply Nat.ltb_lt. }
  assert (Ectx : context
                 = JSArray.join ". " (relevantSentences content query)).
  { subst context. unfold extractRelevantContext.
    destruct (relevantSentences content query); [contradiction|].
    reflexivity. }
  (* the runs of digits of the context *)
  assert (Hnum : match_class is_digit context
                 = flat_map (match_class is_digit)
                            (relevantSentences content query))
    by (rewrite Ectx; apply NumberFacts.numbers_join).
  assert (Hcore : forall n, In n ["42"; "3"] ->
                            In n (match_class is_digit context)).
  { intros n Hn. rewrite Hnum. apply in_flat_map. exists (trim F).
    split; [exact Hsel|]. rewrite NumberFacts.numbers_trim. unfold F.
    rewrite NumberFacts.match_class_app by reflexivity.
    apply in_or_app. right. exact Hn. }
  assert (Hlen : List.length (match_class is_digit context) <= 5).
  { rewrite Hnum.
    etransitivity; [apply NumberFacts.numbers_of_context|].
    rewrite Econtent.
    rewrite NumberFacts.match_class_app by reflexivity.
    rewrite (NumberFacts.match_class_app is_digit core (String "." post))
      by reflexivity.
    rewrite !length_app.
    change (match_class is_digit (String "." post))
      with (match_class is_digit post).
    change (List.length (match_class is_digit core)) with 2. lia. }
  assert (Hlisted : listed = match_class is_digit context)
    by (subst listed; now apply firstn_all2).
  split; [|split].
  - rewrite Hlisted. apply Hcore. now left.
  - rewrite Hlisted. apply Hcore. right. now left.
  - unfold generateAnswer, counting_branch.
    change (includes (toLowerCase query) "summar") with false.
    change (includes (toLowerCase query) "how many") with true.
    cbv iota. simpl orb. cbv iota. fold listed.
    subst listed.
    destruct (match_class is_digit context) as [|n ns] eqn:E.
    + destruct (Hcore "42" (or_introl eq_refl)).
    + reflexivity.
Qed.

Lemma employees_numbers_are_listed_witness :
  generateAnswer
    (extractRelevantContext
       ("Acme has 2 offices and employees. "
        ++ "There are 42 employees in 3 departments." ++ " It is old.")
       "How many employees are there? Count them.")
    "How many employees are there? Count them."
  = "Based on the document, I found the following numbers: 42, 3, 2. "
    ++ "There are 42 employees in 3 departments.".
Proof.
  refine (proj2 (proj2 (employees_numbers_are_listed
                          "Acme has 2 offices and employees. "
                          " It is old." _ _)));
    vm_compute; lia.
Defined.

(** The first condition is needed: five sentences that score more than
    the sentence with the numbers keep it out of the context, which then
    has no digit, and the answer is the default reply. *)
Lemma employees_sentence_can_be_outranked :
  let content :=
    "How many employees are there. How are the many employees there. "
    ++ "There are how many employees. Are there many employees how. "
    ++ "Many employees are there how. "
    ++ "There are 42 employees in 3 departments." in
  let query := "How many employees are there? Count them." in
  let context := extractRelevantContext content query in
  match_class is_digit context = []
  /\ prefix "Based on the document: " (generateAnswer context query) = true.
Proof. split; vm_compute; reflexivity. Qed.

(* ================================================================= *)
(** ** The store and the library *)

Module StoreFacts.

Lemma reload_gives_library_iff (st : AppState) :
  reload_gives_library st
  <-> match st_stored st with
      | Some docs => docs = st_documents st
      | None => [] = st_documents st
      end.
Proof.
  unfold reload_gives_library, loadStoredData. cbn.
  destruct (st_stored st); cbn; tauto.
Qed.

(** The arrival of the stored list makes the library the stored list. *)
Lemma loaded_reload_gives_library (stored : option (list Document)) :
  reload_gives_library (loadStoredData (initial_state stored)).
Proof.
  apply reload_gives_library_iff. unfold loadStoredData. cbn.
  destruct stored; reflexivity.
Qed.

Lemma step_reload_gives_library (st : AppState) (e : Event) :
  save_succeeds e = true ->
  reload_gives_library st -> reload_gives_library (step st e).
Proof.
  rewrite !reload_gives_library_iff. intros Hok Inv.
  destruct e; cbn [step save_succeeds] in *; subst; try exact Inv.
  - unfold loadStoredData.
    destruct (st_stored st) eqn:E; cbn; rewrite E; [reflexivity|exact Inv].
  - now destruct file.
  - reflexivity.
  - unfold handleQuery. destruct (st_selectedDoc st); [|exact Inv].
    now destruct (String.eqb (trim (st_query st)) EmptyString).
  - unfold handleQuery_timeout.
    now destruct (st_timers st) as [|[doc asked] rest].
  - now destruct (nth_error (st_documents st) i).
  - destruct (nth_error (st_documents st) i) as [doc|]; [|exact Inv].
    unfold deleteDocument, saveDocuments.
    destruct (st_selectedDoc st) as [sel|];
      [destruct (Z.eqb (doc_id sel) (doc_id doc))|]; reflexivity.
  - now destruct (st_selectedDoc st).
  - destruct t; try exact Inv. now destruct (st_selectedDoc st).
Qed.

End StoreFacts.

(** X15.  In a session in which the stored list arrives from
    [loadStoredData] before anything else happens and every
    [window.storage.set] succeeds, after each event a new mount would load
    the list of documents that the library shows: the store holds the
    library, or holds nothing while the library is empty. *)
Theorem reload_restores_library (stored : option (list Document))
  (events : list Event) :
  forallb save_succeeds events = true ->
  let st := run (EStoredDataLoaded :: events) (initial_state stored) in
  reload_gives_library st
  /\ match st_stored st with
     | Some docs => docs = st_documents st
     | None => st_documents st = []
     end.
Proof.
  intros Hev st.
  assert (H : reload_gives_library st).
  { subst st. unfold run. cbn [fold_left step].
    pose proof (StoreFacts.loaded_reload_gives_library stored) as Inv.
    revert Inv. generalize (loadStoredData (initial_state stored)).
    induction events as [|e events IH]; intros s Inv; [exact Inv|].
    simpl in Hev. apply andb_prop in Hev. destruct Hev as [He Hev].
    simpl. apply IH; [exact Hev|].
    now apply StoreFacts.step_reload_gives_library. }
  split; [exact H|].
  apply StoreFacts.reload_gives_library_iff in H.
  destruct (st_stored st); [exact H|now symmetry].
Qed.

Lemma reload_restores_library_witness :
  let a := handleFileUpload 1 "2024-01-01" "a.txt" "Ants dig." in
  let st :=
    run [EStoredDataLoaded;
         EFileRead [a] 2 "2024-01-02" "b.txt" "Bees fly." true;
         ETyped "what is a bee"; ESubmit; ETimeout; EDelete 0 true]
        (initial_state (Some [a])) in
  reload_gives_library st
  /\ match st_stored st with
     | Some docs => docs = st_documents st
     | None => st_documents st = []
     end.
Proof.
  intros a.
  apply (reload_restores_library (Some [a])
           [EFileRead [a] 2 "2024-01-02" "b.txt" "Bees fly." true;
            ETyped "what is a bee"; ESubmit; ETimeout; EDelete 0 true]).
  reflexivity.
Defined.

(** Both conditions are needed.  Before the stored list arrives the
    library is empty whatever the store holds; and after a
    [window.storage.set] that failed the store still holds the list from
    before the change. *)
Lemma reload_differs_otherwise :
  let a := handleFileUpload 1 "2024-01-01" "a.txt" "Ants dig." in
  ~ reload_gives_library (run [ETyped "x"] (initial_state (Some [a])))
  /\ ~ reload_gives_library
         (run [EStoredDataLoaded; EDelete 0 false] (initial_state (Some [a]))).
Proof.
  intros a. split; intros H; apply StoreFacts.reload_gives_library_iff in H;
    vm_compute in H; discriminate H.
Qed.
